(** * mal_resampler: the engine facade of the mini_al research resampler

    A shallow embedding of [research/mal_resampler.h]: construction, the
    rate mutators, the read/seek dispatch and the cache queries, followed
    by the properties the specification states about them.

    - [double] is IEEE binary64, Rocq's primitive [float]; its operations
      are the kernel's, their specification is [SpecFloat].
    - Unsigned integers are [Z] in their range.
    - Every C function is a computation over the memory holding the one
      [mal_resampler] object; a non-NULL [mal_resampler*] points to it. *)

From Stdlib Require Import ZArith Bool List Lia.
From Stdlib Require Import Floats.
Import ListNotations.

Set Warnings "-inexact-float".
Local Open Scope Z_scope.

(** ** Types of mini_al.h used by the resampler *)

(** Modelled from the spec: [mal_result] is declared in mini_al.h; the
    resampler only produces success and the invalid-argument error. *)
Inductive mal_result : Type :=
| MAL_SUCCESS
| MAL_INVALID_ARGS.

(** Modelled from the spec: [mal_format] is declared in mini_al.h; only
    f32 and s16 are accepted at construction. *)
Inductive mal_format : Type :=
| mal_format_unknown
| mal_format_u8
| mal_format_s16
| mal_format_s24
| mal_format_s32
| mal_format_f32.

Definition mal_format_eqb (a b : mal_format) : bool :=
  match a, b with
  | mal_format_unknown, mal_format_unknown
  | mal_format_u8, mal_format_u8
  | mal_format_s16, mal_format_s16
  | mal_format_s24, mal_format_s24
  | mal_format_s32, mal_format_s32
  | mal_format_f32, mal_format_f32 => true
  | _, _ => false
  end.

Definition mal_result_eqb (a b : mal_result) : bool :=
  match a, b with
  | MAL_SUCCESS, MAL_SUCCESS | MAL_INVALID_ARGS, MAL_INVALID_ARGS => true
  | _, _ => false
  end.

(** A C pointer whose target is not inspected: NULL or an address. *)
Inductive pointer : Type :=
| NULL
| Addr (a : Z).

Definition is_null (p : pointer) : bool :=
  match p with NULL => true | Addr _ => false end.

(** ** Constants and types of mal_resampler.h *)

Definition MAL_RESAMPLER_SEEK_NO_CLIENT_READ : Z := Z.shiftl 1 0.
Definition MAL_RESAMPLER_SEEK_INPUT_RATE : Z := Z.shiftl 1 1.
Definition MAL_RESAMPLER_CACHE_SIZE_IN_BYTES : Z := 4096.

Definition double : Type := float.

Definition MAL_RESAMPLER_MIN_RATIO : double := 0.001%float.
Definition MAL_RESAMPLER_MAX_RATIO : double := 100.0%float.

Inductive mal_resampler_algorithm : Type :=
| mal_resampler_algorithm_sinc
| mal_resampler_algorithm_linear.

Inductive mal_resampler_end_of_input_mode : Type :=
| mal_resampler_end_of_input_mode_consume
| mal_resampler_end_of_input_mode_no_consume.

(** The backend function pointers hold one of the functions of this file. *)
Inductive mal_resampler_init_proc : Type :=
| fn_init__sinc.

Inductive mal_resampler_read_proc : Type :=
| fn_read__linear
| fn_read__sinc.

Inductive mal_resampler_seek_proc : Type :=
| fn_seek__linear
| fn_seek__sinc.

Record mal_resampler_config : Type := mk_config {
  format : mal_format;
  channels : Z;                 (* mal_uint32 *)
  sampleRateIn : Z;             (* mal_uint32 *)
  sampleRateOut : Z;            (* mal_uint32 *)
  ratio : double;               (* ratio = in/out *)
  algorithm : mal_resampler_algorithm;
  endOfInputMode : mal_resampler_end_of_input_mode;
  onRead : pointer;             (* the client callback, NULL when absent *)
  pUserData : pointer
}.

Record mal_resampler : Type := mk_resampler {
  cache : list Z;               (* the 4096 bytes of the f32/s16 union *)
  firstCachedFrameOffset : Z;   (* mal_uint16 *)
  cacheLengthInFrames : Z;      (* mal_uint16 *)
  windowLength : Z;             (* mal_uint16 *)
  windowTime : double;
  config : mal_resampler_config;
  init : option mal_resampler_init_proc;
  read : option mal_resampler_read_proc;
  seek : option mal_resampler_seek_proc
}.

Definition set_config (c : mal_resampler_config) (r : mal_resampler) : mal_resampler :=
  mk_resampler (cache r) (firstCachedFrameOffset r) (cacheLengthInFrames r)
    (windowLength r) (windowTime r) c (init r) (read r) (seek r).

Definition set_backend (i : option mal_resampler_init_proc)
    (rd : option mal_resampler_read_proc) (sk : option mal_resampler_seek_proc)
    (r : mal_resampler) : mal_resampler :=
  mk_resampler (cache r) (firstCachedFrameOffset r) (cacheLengthInFrames r)
    (windowLength r) (windowTime r) (config r) i rd sk.

Definition with_ratio (x : double) (c : mal_resampler_config) : mal_resampler_config :=
  mk_config (format c) (channels c) (sampleRateIn c) (sampleRateOut c) x
    (algorithm c) (endOfInputMode c) (onRead c) (pUserData c).

Definition with_rates (i o : Z) (c : mal_resampler_config) : mal_resampler_config :=
  mk_config (format c) (channels c) i o (ratio c)
    (algorithm c) (endOfInputMode c) (onRead c) (pUserData c).

(** ** double arithmetic that is not a primitive operation *)

(** Integer to double conversion, rounding to nearest even. *)
Definition double_of_Z (z : Z) : double :=
  SF2Prim (binary_normalize prec emax z 0 false).

(** The integers below and above the finite value (-1)^s * m * 2^e. *)
Definition Zfloor_finite (s : bool) (m : positive) (e : Z) : Z :=
  Z.shiftr (cond_Zopp s (Zpos m)) (- e).

Definition Zceil_finite (s : bool) (m : positive) (e : Z) : Z :=
  - Z.shiftr (- cond_Zopp s (Zpos m)) (- e).

(** Modelled from the spec: [floor] and [ceil] of math.h, the largest
    integral double not above and the smallest not below the argument;
    zeros, infinities and NaN are returned unchanged, and a zero result
    keeps the sign of the argument. *)
Definition floor (x : double) : double :=
  match Prim2SF x with
  | S754_finite s m e =>
      if e <? 0 then SF2Prim (binary_normalize prec emax (Zfloor_finite s m e) 0 s) else x
  | _ => x
  end.

Definition ceil (x : double) : double :=
  match Prim2SF x with
  | S754_finite s m e =>
      if e <? 0 then SF2Prim (binary_normalize prec emax (Zceil_finite s m e) 0 s) else x
  | _ => x
  end.

(** The conversion [(mal_uint64)x]: the fractional part is discarded; the
    conversion is undefined when the integral part is not a mal_uint64. *)
Definition u64_of_double (x : double) : option Z :=
  match Prim2SF x with
  | S754_zero _ => Some 0
  | S754_finite s m e =>
      let t := if s then Zceil_finite s m e else Zfloor_finite s m e in
      if (0 <=? t) && (t <? 2 ^ 64) then Some t else None
  | _ => None
  end.

(** ** Memory and computations *)

(** The memory a call runs in: the engine object a non-NULL
    [mal_resampler*] points to, and the requests made to the client
    callback [config.onRead] so far (the frame count of each, oldest
    first). *)
Record memory : Type := mk_memory {
  engine : mal_resampler;
  client_reads : list Z
}.

(** A call returns a value and the memory it leaves, or stops at a
    violated [mal_assert], or has no defined behaviour. *)
Inductive outcome (A : Type) : Type :=
| Returns (a : A) (m : memory)
| AssertionFailed
| Undefined.

Arguments Returns {A} a m.
Arguments AssertionFailed {A}.
Arguments Undefined {A}.

Definition M (A : Type) : Type := memory -> outcome A.

Definition ret {A : Type} (a : A) : M A := fun m => Returns a m.

Definition bind {A B : Type} (c : M A) (k : A -> M B) : M B :=
  fun m =>
    match c m with
    | Returns a m' => k a m'
    | AssertionFailed => AssertionFailed
    | Undefined => Undefined
    end.

Notation "x <- c ;; k" := (bind c (fun x => k))
  (at level 61, c at next level, right associativity).
Notation "c ;; k" := (bind c (fun _ => k))
  (at level 61, right associativity).

Definition undefined {A : Type} : M A := fun _ => Undefined.

(** Reading the object behind [pResampler]; dereferencing NULL is undefined. *)
Definition load (pResampler : pointer) : M mal_resampler :=
  match pResampler with
  | NULL => undefined
  | Addr _ => fun m => Returns (engine m) m
  end.

(** Updating the object behind [pResampler]. *)
Definition update (pResampler : pointer) (f : mal_resampler -> mal_resampler) : M unit :=
  match pResampler with
  | NULL => undefined
  | Addr _ => fun m => Returns tt (mk_memory (f (engine m)) (client_reads m))
  end.

(** Modelled from the spec: [mal_assert] is mini_al.h's assertion macro,
    the internal assertion that catches an invariant violation. *)
Definition mal_assert (b : bool) : M unit :=
  fun m => if b then Returns tt m else AssertionFailed.

(** [(mal_uint64)x] as a step of a computation. *)
Definition to_mal_uint64 (x : double) : M Z :=
  match u64_of_double x with
  | Some n => ret n
  | None => undefined
  end.

(** Modelled from the spec: [mal_zero_object] of mini_al.h clears every
    byte of the object: numbers are 0, pointers NULL, enumerations their
    first member. *)
Definition zero_config : mal_resampler_config :=
  mk_config mal_format_unknown 0 0 0 0%float mal_resampler_algorithm_sinc
    mal_resampler_end_of_input_mode_consume NULL NULL.

Definition zero_resampler : mal_resampler :=
  mk_resampler (repeat 0 (Z.to_nat MAL_RESAMPLER_CACHE_SIZE_IN_BYTES)) 0 0 0 0%float
    zero_config None None None.

Definition mal_zero_object (pResampler : pointer) : M unit :=
  update pResampler (fun _ => zero_resampler).

(** ** The backends: linear and sinc *)

Definition mal_resampler_read__linear (pResampler : pointer) (frameCount : Z)
    (ppFrames : pointer) : M Z :=
  mal_assert (negb (is_null pResampler)) ;;
  r <- load pResampler ;;
  mal_assert (negb (is_null (onRead (config r)))) ;;
  mal_assert (0 <? frameCount) ;;
  mal_assert (negb (is_null ppFrames)) ;;
  (* TODO: Implement me. *)
  ret 0.

Definition mal_resampler_seek__linear (pResampler : pointer) (frameCount : Z)
    (options : Z) : M Z :=
  mal_assert (negb (is_null pResampler)) ;;
  r <- load pResampler ;;
  mal_assert (negb (is_null (onRead (config r)))) ;;
  mal_assert (0 <? frameCount) ;;
  (* TODO: Implement me. *)
  ret 0.

Definition mal_resampler_init__sinc (pResampler : pointer) : M mal_result :=
  mal_assert (negb (is_null pResampler)) ;;
  (* TODO: Implement me. Need to initialize the sinc table. *)
  ret MAL_SUCCESS.

Definition mal_resampler_read__sinc (pResampler : pointer) (frameCount : Z)
    (ppFrames : pointer) : M Z :=
  mal_assert (negb (is_null pResampler)) ;;
  r <- load pResampler ;;
  mal_assert (negb (is_null (onRead (config r)))) ;;
  mal_assert (0 <? frameCount) ;;
  mal_assert (negb (is_null ppFrames)) ;;
  (* TODO: Implement me. *)
  ret 0.

Definition mal_resampler_seek__sinc (pResampler : pointer) (frameCount : Z)
    (options : Z) : M Z :=
  mal_assert (negb (is_null pResampler)) ;;
  r <- load pResampler ;;
  mal_assert (negb (is_null (onRead (config r)))) ;;
  mal_assert (0 <? frameCount) ;;
  (* TODO: Implement me. *)
  ret 0.

(** Calls through the backend function pointers. *)
Definition call_init (f : mal_resampler_init_proc) : pointer -> M mal_result :=
  match f with
  | fn_init__sinc => mal_resampler_init__sinc
  end.

Definition call_read (f : mal_resampler_read_proc) : pointer -> Z -> pointer -> M Z :=
  match f with
  | fn_read__linear => mal_resampler_read__linear
  | fn_read__sinc => mal_resampler_read__sinc
  end.

Definition call_seek (f : mal_resampler_seek_proc) : pointer -> Z -> Z -> M Z :=
  match f with
  | fn_seek__linear => mal_resampler_seek__linear
  | fn_seek__sinc => mal_resampler_seek__sinc
  end.

(** ** The engine facade *)

Definition mal_resampler_init (pConfig : option mal_resampler_config)
    (pResampler : pointer) : M mal_result :=
  if is_null pResampler then ret MAL_INVALID_ARGS else
  mal_zero_object pResampler ;;
  match pConfig with
  | None => ret MAL_INVALID_ARGS
  | Some cfg =>
    update pResampler (set_config cfg) ;;
    r <- load pResampler ;;
    if negb (mal_format_eqb (format (config r)) mal_format_f32)
       && negb (mal_format_eqb (format (config r)) mal_format_s16)
    then ret MAL_INVALID_ARGS        (* Unsupported format. *)
    else if channels (config r) =? 0
    then ret MAL_INVALID_ARGS        (* Unsupported channel count. *)
    else
      let rest : M mal_result :=
        r <- load pResampler ;;
        if is_null (onRead (config r))
        then ret MAL_INVALID_ARGS    (* No input callback specified. *)
        else
          match algorithm (config r) with
          | mal_resampler_algorithm_linear =>
              update pResampler (set_backend None (Some fn_read__linear) (Some fn_seek__linear))
          | mal_resampler_algorithm_sinc =>
              update pResampler
                (set_backend (Some fn_init__sinc) (Some fn_read__sinc) (Some fn_seek__sinc))
          end ;;
          r <- load pResampler ;;
          match init r with
          | Some f =>
              result <- call_init f pResampler ;;
              if negb (mal_result_eqb result MAL_SUCCESS) then ret result else ret MAL_SUCCESS
          | None => ret MAL_SUCCESS
          end
      in
      if (ratio (config r) =? 0)%float
      then
        if (sampleRateIn (config r) =? 0) || (sampleRateOut (config r) =? 0)
        then ret MAL_INVALID_ARGS    (* Unsupported sample rate. *)
        else
          update pResampler (fun r =>
            set_config (with_ratio (double_of_Z (sampleRateIn (config r))
                                    / double_of_Z (sampleRateOut (config r)))%float
                                   (config r)) r) ;;
          rest
      else rest
  end.

Definition mal_resampler_uninit (pResampler : pointer) : M unit :=
  ret tt.

Definition mal_resampler_set_rate (pResampler : pointer)
    (sampleRateIn' sampleRateOut' : Z) : M mal_result :=
  if is_null pResampler then ret MAL_INVALID_ARGS else
  if (sampleRateIn' =? 0) || (sampleRateOut' =? 0) then ret MAL_INVALID_ARGS else
  r <- load pResampler ;;
  let ratio' := (double_of_Z (sampleRateIn (config r))
                 / double_of_Z (sampleRateOut (config r)))%float in
  if (ratio' <? MAL_RESAMPLER_MIN_RATIO)%float || (MAL_RESAMPLER_MAX_RATIO <? ratio')%float
  then ret MAL_INVALID_ARGS          (* Ratio is too extreme. *)
  else
    update pResampler (fun r =>
      set_config (with_rates sampleRateIn' sampleRateOut' (config r)) r) ;;
    update pResampler (fun r => set_config (with_ratio ratio' (config r)) r) ;;
    ret MAL_SUCCESS.

Definition mal_resampler_set_rate_ratio (pResampler : pointer) (ratio' : double)
    : M mal_result :=
  if is_null pResampler then ret MAL_INVALID_ARGS else
  if (ratio' <? MAL_RESAMPLER_MIN_RATIO)%float || (MAL_RESAMPLER_MAX_RATIO <? ratio')%float
  then ret MAL_INVALID_ARGS          (* Ratio is too extreme. *)
  else
    update pResampler (fun r => set_config (with_ratio ratio' (config r)) r) ;;
    ret MAL_SUCCESS.

(** The check [pResampler == NULL || pResampler->f == NULL]; the second
    operand is only evaluated behind a non-NULL pointer. *)
Definition null_or_unset {P : Type} (pResampler : pointer)
    (f : mal_resampler -> option P) : M (option P) :=
  if is_null pResampler then ret None else
  r <- load pResampler ;;
  ret (f r).

Definition mal_resampler_seek (pResampler : pointer) (frameCount : Z) (options : Z)
    : M Z :=
  sk <- null_or_unset pResampler seek ;;
  match sk with
  | None => ret 0
  | Some f =>
    if frameCount =? 0 then ret 0   (* Nothing to do, so return early. *)
    else call_seek f pResampler frameCount options
  end.

Definition mal_resampler_read (pResampler : pointer) (frameCount : Z)
    (ppFrames : pointer) : M Z :=
  rd <- null_or_unset pResampler read ;;
  match rd with
  | None => ret 0                   (* Invalid arguments. *)
  | Some f =>
    if frameCount =? 0 then ret 0   (* Nothing to do, so return early. *)
    else
      (* When ppFrames is NULL, reading is equivalent to seeking with default options. *)
      if is_null ppFrames then mal_resampler_seek pResampler frameCount 0
      else call_read f pResampler frameCount ppFrames
  end.

(** ** The cache queries *)

Definition mal_resampler__calculate_cached_input_time (pResampler : pointer) : M double :=
  r <- load pResampler ;;
  let cachedInputTime := double_of_Z (cacheLengthInFrames r) in
  match endOfInputMode (config r) with
  | mal_resampler_end_of_input_mode_consume =>
      ret (cachedInputTime
           - (windowTime r + double_of_Z (Z.shiftr (windowLength r) 1)))%float
  | mal_resampler_end_of_input_mode_no_consume =>
      ret (cachedInputTime - (windowTime r + double_of_Z (windowLength r)))%float
  end.

Definition mal_resampler_get_cached_input_time (pResampler : pointer) : M double :=
  if is_null pResampler then ret 0%float   (* Invalid args. *)
  else mal_resampler__calculate_cached_input_time pResampler.

Definition mal_resampler__calculate_cached_output_time (pResampler : pointer) : M double :=
  t <- mal_resampler__calculate_cached_input_time pResampler ;;
  r <- load pResampler ;;
  ret (t / ratio (config r))%float.

Definition mal_resampler_get_cached_output_time (pResampler : pointer) : M double :=
  if is_null pResampler then ret 0%float   (* Invalid args. *)
  else mal_resampler__calculate_cached_output_time pResampler.

Definition mal_resampler_get_cached_input_frame_count (pResampler : pointer) : M Z :=
  t <- mal_resampler_get_cached_input_time pResampler ;;
  to_mal_uint64 (ceil t).

Definition mal_resampler_get_cached_output_frame_count (pResampler : pointer) : M Z :=
  t <- mal_resampler_get_cached_output_time pResampler ;;
  to_mal_uint64 (floor t).

Definition mal_resampler_get_required_input_frame_count (pResampler : pointer)
    (outputFrameCount : Z) : M Z :=
  if is_null pResampler then ret 0 else    (* Invalid args. *)
  if outputFrameCount =? 0 then ret 0 else
  (* First grab the amount of output time sitting in the cache. *)
  cachedOutputTime <- mal_resampler__calculate_cached_output_time pResampler ;;
  if (double_of_Z outputFrameCount <=? cachedOutputTime)%float
  then ret 0   (* All of the necessary input data is cached. *)
  else
    let nonCachedOutputTime := (double_of_Z outputFrameCount - cachedOutputTime)%float in
    mal_assert (0 <? nonCachedOutputTime)%float ;;
    r <- load pResampler ;;
    requiredInputFrames <- to_mal_uint64 (ceil (nonCachedOutputTime * ratio (config r))%float) ;;
    mal_assert (0 <? requiredInputFrames) ;;
    ret requiredInputFrames.

Definition mal_resampler_get_expected_output_frame_count (pResampler : pointer)
    (inputFrameCount : Z) : M Z :=
  if is_null pResampler then ret 0 else    (* Invalid args. *)
  if inputFrameCount =? 0 then ret 0 else
  t <- mal_resampler__calculate_cached_input_time pResampler ;;
  r <- load pResampler ;;
  to_mal_uint64 (floor ((t + double_of_Z inputFrameCount) / ratio (config r))%float).

(** ** Predicates on engines and calls *)

(** The backend pointers as construction leaves them: [read] and [seek]
    are selected together, or both are still NULL. *)
Definition backends_paired (r : mal_resampler) : bool :=
  match read r, seek r with
  | None, None | Some _, Some _ => true
  | _, _ => false
  end.

(** A query: a call that, when it returns, leaves the memory (the engine
    object and the record of client reads) as it found it. *)
Definition preserves_memory {A : Type} (c : M A) : Prop :=
  forall m, match c m with Returns _ m' => m' = m | _ => True end.

(** A query that moreover always returns. *)
Definition total_query {A : Type} (c : M A) : Prop :=
  forall m, exists v, c m = Returns v m.

(** The range of a [mal_uint16] field. *)
Definition is_uint16 (z : Z) : bool := (0 <=? z) && (z <? 2 ^ 16).

(** The part of the cache that is reserved as filter state: half of the
    window when the end of the input is consumed, all of it otherwise. *)
Definition reserved (r : mal_resampler) : double :=
  match endOfInputMode (config r) with
  | mal_resampler_end_of_input_mode_consume => double_of_Z (Z.shiftr (windowLength r) 1)
  | mal_resampler_end_of_input_mode_no_consume => double_of_Z (windowLength r)
  end.

(** Modelled from the spec: the capacity of the cache in frames for the
    configured format and channel count (the code never computes it). *)
Definition bytes_per_sample (f : mal_format) : Z :=
  match f with
  | mal_format_f32 => 4
  | mal_format_s16 => 2
  | _ => 0
  end.

Definition cache_capacity_in_frames (c : mal_resampler_config) : Z :=
  MAL_RESAMPLER_CACHE_SIZE_IN_BYTES / (bytes_per_sample (format c) * channels c).

(** Modelled from the spec: the invariants of the data model: the cached
    frames fit the cache, [windowTime] is non-negative and within the
    cached region, and the ratio is within its bounds. *)
Definition data_model_invariants (r : mal_resampler) : bool :=
  (0 <=? firstCachedFrameOffset r)
  && (0 <=? cacheLengthInFrames r)
  && (cacheLengthInFrames r <=? cache_capacity_in_frames (config r))
  && (0 <=? windowTime r)%float
  && (windowTime r <=? double_of_Z (cacheLengthInFrames r))%float
  && (MAL_RESAMPLER_MIN_RATIO <=? ratio (config r))%float
  && (ratio (config r) <=? MAL_RESAMPLER_MAX_RATIO)%float.

(** ** Classes of [spec_float] values *)

(** Zero, or finite or infinite with the sign bit clear. *)
Definition SFnonneg (x : spec_float) : bool :=
  match x with
  | S754_zero _ => true
  | S754_infinity s | S754_finite s _ _ => negb s
  | S754_nan => false
  end.

(** Zero or finite: neither an infinity nor NaN. *)
Definition SFfinite (x : spec_float) : bool :=
  match x with
  | S754_zero _ | S754_finite _ _ _ => true
  | _ => false
  end.

(** Not NaN, with sign bit [s]. *)
Definition SFsigned (s : bool) (x : spec_float) : bool :=
  match x with
  | S754_zero s' | S754_infinity s' | S754_finite s' _ _ => Bool.eqb s s'
  | S754_nan => false
  end.

(** Positive and finite, at least 2^(lo-1) and below 2^hi. *)
Definition SFpos_in (lo hi : Z) (x : spec_float) : Prop :=
  exists m e, x = S754_finite false m e
    /\ bounded prec emax m e = true
    /\ lo <= Zpos (digits2_pos m) + e <= hi.

(** ** Example engines *)

(** A mono f32 engine on the linear backend with a client callback. *)
Definition example_config (rateIn rateOut : Z) (r : double) : mal_resampler_config :=
  mk_config mal_format_f32 1 rateIn rateOut r mal_resampler_algorithm_linear
    mal_resampler_end_of_input_mode_consume (Addr 4096) NULL.

(** The engine as construction from [example_config] leaves it, with the
    given cache fields. *)
Definition example_engine (cacheLength window : Z) (time : double)
    (c : mal_resampler_config) : mal_resampler :=
  mk_resampler (repeat 0 (Z.to_nat MAL_RESAMPLER_CACHE_SIZE_IN_BYTES)) 0 cacheLength
    window time c None (Some fn_read__linear) (Some fn_seek__linear).

Definition example_memory (r : mal_resampler) : memory := mk_memory r [].

(** The memory before construction: an engine object not yet initialised
    (here all zero) and no client read so far. *)
Definition fresh_memory : memory := example_memory zero_resampler.

(** ** The alignment macros *)

(** [MAL_ALIGN_INT(val, alignment)] on an unsigned [val] of [bits] bits
    and an [int] alignment, [int] being [int_bits] wide. Where the type of
    [val] is not narrower than [int] (as the [mal_uintptr] of
    [MAL_ALIGN_PTR]), [alignment - 1] and its complement are converted to
    that type and the sum wraps around. Where it is narrower, [val] is
    promoted to [int]: nothing wraps at [bits], and the sum is the exact
    one (it leaves the range of [int], which C does not define, only for
    an alignment of nearly the size of that range). *)
Definition MAL_ALIGN_INT (int_bits bits val alignment : Z) : Z :=
  if bits <? int_bits
  then Z.land (val + (alignment - 1)) (Z.lnot (alignment - 1))
  else Z.land ((val + (alignment - 1)) mod 2 ^ bits) (Z.lnot (alignment - 1) mod 2 ^ bits).

(** [MAL_ALIGN_PTR(ptr, alignment)], a pointer being its address and
    [bits] the width of [mal_uintptr]. *)
Definition MAL_ALIGN_PTR (int_bits bits ptr alignment : Z) : Z :=
  MAL_ALIGN_INT int_bits bits ptr alignment.

(** What [MAL_DECLARE_ALIGNED_STACK_BUFFER(type, name, size, channels)]
    computes, [alignment] being [MAL_SIMD_ALIGNMENT] (defined in
    mini_al.h): the bytes of a sub-buffer [(size) & ~(alignment-1)], the
    frame count of a sub-buffer, and the pointer [name[iChannel]] into
    the array at address [unaligned]; the offset of a channel is an
    unsigned product of [offset_bits] bits. *)
Definition stack_buffer_bytes (size alignment : Z) : Z :=
  Z.land size (Z.lnot (alignment - 1)).

Definition stack_buffer_FrameCount (size alignment sizeof_type : Z) : Z :=
  stack_buffer_bytes size alignment / sizeof_type.

Definition stack_buffer_channel
    (int_bits bits offset_bits unaligned size alignment iChannel : Z) : Z :=
  MAL_ALIGN_PTR int_bits bits unaligned alignment
  + (iChannel * stack_buffer_bytes size alignment) mod 2 ^ offset_bits.

(** The address one past the end of the array
    [mal_uint8 nameUnaligned[(size) + MAL_SIMD_ALIGNMENT]] at address
    [unaligned]. *)
Definition stack_buffer_end (unaligned size alignment : Z) : Z :=
  unaligned + (size + alignment).

(** ** Configurations that construction accepts *)

(** The checks of [mal_resampler_init] on a configuration, in one test. *)
Definition config_accepted (c : mal_resampler_config) : bool :=
  (mal_format_eqb (format c) mal_format_f32 || mal_format_eqb (format c) mal_format_s16)
  && negb (channels c =? 0)
  && (negb (ratio c =? 0)%float
      || (negb (sampleRateIn c =? 0) && negb (sampleRateOut c =? 0)))
  && negb (is_null (onRead c)).

(** The engine a successful construction from [c] leaves: an empty
    cache, the configuration with its ratio derived from the rates when
    none is given, and the backend of the selected algorithm. *)
Definition constructed_config (c : mal_resampler_config) : mal_resampler_config :=
  if (ratio c =? 0)%float
  then with_ratio (double_of_Z (sampleRateIn c) / double_of_Z (sampleRateOut c))%float c
  else c.

Definition constructed_engine (c : mal_resampler_config) : mal_resampler :=
  match algorithm c with
  | mal_resampler_algorithm_linear =>
      set_backend None (Some fn_read__linear) (Some fn_seek__linear)
        (set_config (constructed_config c) zero_resampler)
  | mal_resampler_algorithm_sinc =>
      set_backend (Some fn_init__sinc) (Some fn_read__sinc) (Some fn_seek__sinc)
        (set_config (constructed_config c) zero_resampler)
  end.

(** The ratio passes the test of the rate mutators: it is neither below
    the minimum nor above the maximum. *)
Definition ratio_checked (x : double) : bool :=
  negb ((x <? MAL_RESAMPLER_MIN_RATIO)%float || (MAL_RESAMPLER_MAX_RATIO <? x)%float).

(** An engine with nothing cached and no window, as construction leaves it. *)
Definition cache_empty (r : mal_resampler) : Prop :=
  cacheLengthInFrames r = 0 /\ windowLength r = 0 /\ windowTime r = 0%float.

(** * Properties *)

(** ** double arithmetic

    Facts about binary64 derived from its specification in [SpecFloat]:
    the sign and the magnitude of what the operations used by the queries
    return. *)

Module Binary64.

(** *** Comparisons *)

(** Swapping the operands of a comparison swaps its result. *)
Lemma SFcompare_antisym (x y : spec_float) :
  SFcompare y x = option_map CompOpp (SFcompare x y).
Proof.
  destruct x as [sx|sx| |sx mx ex], y as [sy|sy| |sy my ey]; cbn [SFcompare option_map];
    try destruct sx; try destruct sy; try reflexivity.
  all: rewrite (Z.compare_antisym ex ey); destruct (ex ?= ey); cbn [CompOpp]; try reflexivity.
  all: pose proof (Pos.compare_cont_antisym mx my Eq) as Hm; cbn [CompOpp] in Hm;
       rewrite <- Hm; destruct (Pos.compare_cont Eq mx my); reflexivity.
Qed.

Lemma SFcompare_None (x y : spec_float) :
  SFcompare x y = None -> x = S754_nan \/ y = S754_nan.
Proof.
  destruct x as [sx|sx| |sx mx ex], y as [sy|sy| |sy my ey]; cbn [SFcompare];
    auto; discriminate.
Qed.

Lemma SFleb_SFltb (x y : spec_float) : SFleb x y = true -> SFltb y x = false.
Proof.
  unfold SFleb, SFltb. rewrite (SFcompare_antisym x y).
  destruct (SFcompare x y) as [[]|]; cbn; congruence.
Qed.

Lemma SFleb_false_SFltb (x y : spec_float) :
  SFcompare x y <> None -> SFleb x y = false -> SFltb y x = true.
Proof.
  unfold SFleb, SFltb. rewrite (SFcompare_antisym x y).
  destruct (SFcompare x y) as [[]|]; cbn; congruence.
Qed.

Lemma SFleb_zero (x : spec_float) : SFleb (S754_zero false) x = SFnonneg x.
Proof. destruct x as [s|s| |s m e]; try destruct s; reflexivity. Qed.

(** *** Mantissas and their number of digits *)

(** A mantissa of [d] digits is at least 2^(d-1) and below 2^d. *)
Lemma digits2_pos_bounds (m : positive) :
  2 ^ (Zpos (digits2_pos m) - 1) <= Zpos m < 2 ^ Zpos (digits2_pos m).
Proof.
  induction m as [p IH|p IH|]; cbn [digits2_pos].
  - rewrite Pos2Z.inj_succ.
    replace (Z.succ (Zpos (digits2_pos p)) - 1) with (Z.succ (Zpos (digits2_pos p) - 1)) by lia.
    rewrite !Z.pow_succ_r by lia. lia.
  - rewrite Pos2Z.inj_succ.
    replace (Z.succ (Zpos (digits2_pos p)) - 1) with (Z.succ (Zpos (digits2_pos p) - 1)) by lia.
    rewrite !Z.pow_succ_r by lia. lia.
  - cbn. lia.
Qed.

Lemma digits2_pos_log2 (m : positive) : Zpos (digits2_pos m) = Z.log2 (Zpos m) + 1.
Proof.
  pose proof (digits2_pos_bounds m) as B.
  rewrite (Z.log2_unique (Zpos m) (Zpos (digits2_pos m) - 1)); [lia|lia|].
  replace (Z.succ (Zpos (digits2_pos m) - 1)) with (Zpos (digits2_pos m)) by lia. exact B.
Qed.

Lemma Zdigits2_log2 (z : Z) : 0 < z -> Zdigits2 z = Z.log2 z + 1.
Proof. destruct z as [|p|p]; try lia. intros _. apply digits2_pos_log2. Qed.

Lemma digits2_pos_le_53 (z : positive) : Zpos z < 2 ^ 53 -> Zpos (digits2_pos z) <= 53.
Proof.
  intros Hz. pose proof (digits2_pos_bounds z) as B.
  destruct (Z.le_gt_cases (Zpos (digits2_pos z)) 53) as [|Hgt]; trivial.
  assert (2 ^ 53 <= 2 ^ (Zpos (digits2_pos z) - 1)) by (apply Z.pow_le_mono_r; lia).
  lia.
Qed.

Lemma iter_xO_value (m d : positive) : Zpos (Pos.iter xO m d) = Zpos m * 2 ^ Zpos d.
Proof.
  induction d as [|d IH] using Pos.peano_ind.
  - cbn. lia.
  - rewrite Pos.iter_succ, Pos2Z.inj_succ, Z.pow_succ_r by lia.
    rewrite Pos2Z.inj_xO, IH. lia.
Qed.

Lemma digits2_pos_iter_xO (m k : positive) :
  digits2_pos (Pos.iter xO m k) = (digits2_pos m + k)%positive.
Proof.
  induction k as [|k IH] using Pos.peano_ind.
  - cbn. lia.
  - rewrite Pos.iter_succ. cbn [digits2_pos]. rewrite IH. lia.
Qed.

Lemma shl_align_value (m : positive) (e e' : Z) :
  e' <= e -> Zpos (fst (shl_align m e e')) = Zpos m * 2 ^ (e - e').
Proof.
  intros H. unfold shl_align.
  destruct (e' - e) as [|d|d] eqn:Hd; try lia.
  - replace (e - e') with 0 by lia. cbn [fst]. lia.
  - cbn [fst]. rewrite iter_xO_value. f_equal. f_equal. lia.
Qed.

(** *** Canonical representations *)

Lemma fexp_spec (x : Z) : fexp prec emax x = Z.max (x - 53) (-1074).
Proof. reflexivity. Qed.

(** A representable pair: the exponent is the canonical one of the
    magnitude and does not exceed the largest one. *)
Lemma bounded_spec (m : positive) (e : Z) :
  bounded prec emax m e = true <->
  e = Z.max (Zpos (digits2_pos m) + e - 53) (-1074) /\ e <= 971.
Proof.
  unfold bounded, canonical_mantissa. rewrite fexp_spec.
  rewrite andb_true_iff, Z.eqb_eq, Z.leb_le. unfold emax, prec. lia.
Qed.

Lemma bounded_digits (m : positive) (e : Z) :
  bounded prec emax m e = true ->
  Zpos (digits2_pos m) <= 53 /\ (e = -1074 \/ Zpos (digits2_pos m) = 53).
Proof.
  unfold bounded, canonical_mantissa, fexp, SpecFloat.emin, prec, emax.
  intros H. apply andb_true_iff in H. destruct H as [H _].
  apply Z.eqb_eq in H. lia.
Qed.

(** Among representable positive numbers the smaller exponent has the
    smaller value. *)
Lemma bounded_lt (m1 m2 : positive) (e1 e2 : Z) :
  bounded prec emax m1 e1 = true -> bounded prec emax m2 e2 = true ->
  e1 < e2 -> Zpos m1 < Zpos m2 * 2 ^ (e2 - e1).
Proof.
  intros H1 H2 He.
  destruct (bounded_digits _ _ H1) as [Hd1 _].
  destruct (bounded_digits _ _ H2) as [_ Hd2].
  assert (He1 : -1074 <= e1).
  { unfold bounded, canonical_mantissa, fexp, SpecFloat.emin, prec, emax in H1.
    apply andb_true_iff in H1. destruct H1 as [H1 _]. apply Z.eqb_eq in H1. lia. }
  destruct Hd2 as [Hd2|Hd2]; [lia|].
  pose proof (digits2_pos_bounds m1) as B1.
  pose proof (digits2_pos_bounds m2) as B2.
  rewrite Hd2 in B2.
  assert (Zpos m1 < 2 ^ 53).
  { apply Z.lt_le_trans with (2 ^ Zpos (digits2_pos m1)); [lia|].
    apply Z.pow_le_mono_r; lia. }
  assert (2 ^ 1 <= 2 ^ (e2 - e1)) by (apply Z.pow_le_mono_r; lia).
  change (2 ^ (53 - 1)) with 4503599627370496 in B2.
  change (2 ^ 53) with 9007199254740992 in *.
  change (2 ^ 1) with 2 in *.
  nia.
Qed.

(** Comparison of positive numbers is monotone in the magnitude. *)
Lemma SFleb_mag (m1 m2 : positive) (e1 e2 : Z) :
  bounded prec emax m1 e1 = true -> bounded prec emax m2 e2 = true ->
  SFleb (S754_finite false m1 e1) (S754_finite false m2 e2) = true ->
  Zpos (digits2_pos m1) + e1 <= Zpos (digits2_pos m2) + e2.
Proof.
  intros B1 B2 H. apply bounded_spec in B1, B2.
  unfold SFleb in H. cbn [SFcompare] in H.
  destruct (Z.compare_spec e1 e2) as [He|He|He]; try discriminate H; try lia.
  subst e2.
  assert (Hm : (m1 <= m2)%positive).
  { destruct (Pos.compare_cont Eq m1 m2) eqn:Hc; try discriminate H.
    - apply Pos.compare_eq in Hc. subst. lia.
    - assert ((m1 < m2)%positive) by exact Hc. lia. }
  rewrite !digits2_pos_log2.
  pose proof (Z.log2_le_mono (Zpos m1) (Zpos m2) ltac:(lia)). lia.
Qed.

(** *** Shifting and rounding *)

Lemma shr_1_nonneg (mrs : shr_record) : 0 <= shr_m mrs -> 0 <= shr_m (shr_1 mrs).
Proof.
  destruct mrs as [m r s]. cbn.
  destruct m as [|[p|p|]|p]; cbn; lia.
Qed.

Lemma shr_1_m (mrs : shr_record) : 0 <= shr_m mrs -> shr_m (shr_1 mrs) = Z.div2 (shr_m mrs).
Proof.
  destruct mrs as [m r s]. cbn [shr_m]. intros Hm.
  destruct m as [|[p|p|]|p]; try lia; reflexivity.
Qed.

Lemma iter_pos_invariant {A : Type} (P : A -> Prop) (f : A -> A) :
  (forall x, P x -> P (f x)) -> forall n x, P x -> P (iter_pos f n x).
Proof.
  intros Hf. induction n as [n IH|n IH|]; intros x Hx; cbn; auto.
Qed.

(** Shifting right by [n] places divides the mantissa by [2^n]. *)
Lemma iter_pos_shr_1_m (n : positive) (mrs : shr_record) :
  0 <= shr_m mrs -> shr_m (iter_pos shr_1 n mrs) = Z.shiftr (shr_m mrs) (Zpos n).
Proof.
  revert mrs. induction n as [n IH|n IH|]; intros mrs Hm; cbn [iter_pos].
  - assert (H1 : 0 <= shr_m (shr_1 mrs)) by now apply shr_1_nonneg.
    assert (H2 : 0 <= shr_m (iter_pos shr_1 n (shr_1 mrs))).
    { apply (iter_pos_invariant (fun x => 0 <= shr_m x)); trivial. apply shr_1_nonneg. }
    rewrite IH, IH, shr_1_m by trivial.
    rewrite Z.div2_spec, !Z.shiftr_shiftr by lia. f_equal. lia.
  - assert (H2 : 0 <= shr_m (iter_pos shr_1 n mrs)).
    { apply (iter_pos_invariant (fun x => 0 <= shr_m x)); trivial. apply shr_1_nonneg. }
    rewrite IH, IH by trivial.
    rewrite !Z.shiftr_shiftr by lia. f_equal. lia.
  - rewrite shr_1_m by trivial. apply Z.div2_spec.
Qed.

Lemma shr_fexp_nonneg (m e : Z) (l : location) :
  0 <= m -> 0 <= shr_m (fst (shr_fexp prec emax m e l)).
Proof.
  intros Hm. unfold shr_fexp, shr.
  assert (H0 : 0 <= shr_m (shr_record_of_loc m l)).
  { destruct l as [|[]]; exact Hm. }
  destruct (fexp prec emax (Zdigits2 m + e) - e) as [|p|p]; cbn [fst]; trivial.
  apply (iter_pos_invariant (fun x => 0 <= shr_m x)); trivial.
  apply shr_1_nonneg.
Qed.

Lemma round_nearest_even_nonneg (m : Z) (l : location) :
  0 <= m -> 0 <= round_nearest_even m l.
Proof.
  intros Hm. unfold round_nearest_even.
  destruct l as [|[]]; try destruct (Z.even m); lia.
Qed.

Lemma round_nearest_even_cases (m : Z) (l : location) :
  round_nearest_even m l = m \/ round_nearest_even m l = m + 1.
Proof. unfold round_nearest_even. destruct l as [|[]]; try destruct (Z.even m); auto. Qed.

Lemma shiftr_pos_log2 (z k : Z) :
  0 < z -> 0 <= k <= Z.log2 z -> 0 < Z.shiftr z k /\ Z.log2 (Z.shiftr z k) = Z.log2 z - k.
Proof.
  intros Hz Hk. split.
  - rewrite Z.shiftr_div_pow2 by lia.
    apply Z.div_str_pos. split; [apply Z.pow_pos_nonneg; lia|].
    apply Z.le_trans with (2 ^ Z.log2 z).
    + apply Z.pow_le_mono_r; lia.
    + apply Z.log2_spec; lia.
  - rewrite Z.log2_shiftr by lia. lia.
Qed.

Lemma log2_succ_cases (z : Z) : 0 < z -> Z.log2 (z + 1) = Z.log2 z \/ Z.log2 (z + 1) = Z.log2 z + 1.
Proof.
  intros Hz.
  pose proof (Z.log2_le_mono z (z + 1) ltac:(lia)).
  pose proof (Z.log2_succ_le z). unfold Z.succ in *. lia.
Qed.

(** Rounding a non-negative mantissa gives a result of the requested sign:
    a zero, a finite number or an infinity, never NaN. *)
Lemma binary_round_aux_signed (s : bool) (m e : Z) (l : location) :
  0 <= m -> SFsigned s (binary_round_aux prec emax s m e l) = true.
Proof.
  intros Hm. unfold binary_round_aux.
  pose proof (shr_fexp_nonneg m e l Hm) as H1.
  destruct (shr_fexp prec emax m e l) as [mrs' e']. cbn [fst] in H1.
  pose proof (shr_fexp_nonneg _ e' loc_Exact
                (round_nearest_even_nonneg _ (loc_of_shr_record mrs') H1)) as H2.
  destruct (shr_fexp prec emax _ e' loc_Exact) as [mrs'' e'']. cbn [fst] in H2.
  destruct (shr_m mrs'') as [|p|p]; try lia.
  - cbn. apply Bool.eqb_reflx.
  - destruct (e'' <=? emax - prec); cbn; apply Bool.eqb_reflx.
Qed.

Lemma binary_normalize_nonneg (z e : Z) :
  0 <= z -> SFnonneg (binary_normalize prec emax z e false) = true.
Proof.
  intros Hz. destruct z as [|m|m]; try lia; [reflexivity|].
  cbn [binary_normalize]. unfold binary_round.
  destruct (shl_align m e _) as [mz ez].
  pose proof (binary_round_aux_signed false (Zpos mz) ez loc_Exact ltac:(lia)) as H.
  destruct (binary_round_aux prec emax false (Zpos mz) ez loc_Exact) as [s|s| |s m' e'];
    cbn in *; try discriminate; destruct s; trivial; discriminate.
Qed.

(** A canonical mantissa is left as it is. *)
Lemma binary_round_aux_canonical (s : bool) (m : positive) (e : Z) :
  fexp prec emax (Zpos (digits2_pos m) + e) = e -> e <= emax - prec ->
  binary_round_aux prec emax s (Zpos m) e loc_Exact = S754_finite s m e.
Proof.
  intros Hc He. unfold binary_round_aux, shr_fexp.
  cbn [Zdigits2 shr_record_of_loc]. rewrite Hc, Z.sub_diag. cbn [shr].
  cbn [shr_m loc_of_shr_record round_nearest_even Zdigits2 shr_record_of_loc].
  rewrite Hc, Z.sub_diag. cbn [shr shr_m].
  apply Z.leb_le in He. now rewrite He.
Qed.

(** Rounding an exact positive value within the range of the format gives
    a finite number of the same magnitude, or of the next one when the
    rounding carries. *)
Lemma binary_round_aux_exact_finite (s : bool) (m : positive) (e : Z) :
  -1074 < Zpos (digits2_pos m) + e -> Zpos (digits2_pos m) + e < 1024 -> e <= 971 ->
  exists m' e', binary_round_aux prec emax s (Zpos m) e loc_Exact = S754_finite s m' e'
    /\ Zpos (digits2_pos m) + e <= Zpos (digits2_pos m') + e'
       <= Zpos (digits2_pos m) + e + 1.
Proof.
  intros Hlo Hhi He.
  pose proof (digits2_pos_log2 m) as Hd.
  unfold binary_round_aux, shr_fexp. cbn [Zdigits2 shr_record_of_loc].
  rewrite fexp_spec.
  destruct (Z.max (Zpos (digits2_pos m) + e - 53) (-1074) - e) as [|k|k] eqn:Hk; cbn [shr].
  1,3: cbn [shr_m loc_of_shr_record round_nearest_even shr_record_of_loc Zdigits2];
       rewrite fexp_spec, Hk; cbn [shr shr_m];
       assert (Hle : (e <=? emax - prec) = true) by (apply Z.leb_le; unfold emax, prec; lia);
       rewrite Hle; exists m, e; split; [reflexivity|lia].
  set (mrs1 := iter_pos shr_1 k {| shr_m := Zpos m; shr_r := false; shr_s := false |}).
  assert (Hm1 : shr_m mrs1 = Z.shiftr (Zpos m) (Zpos k)).
  { unfold mrs1. rewrite iter_pos_shr_1_m; cbn [shr_m]; [reflexivity|lia]. }
  destruct (shiftr_pos_log2 (Zpos m) (Zpos k) ltac:(lia) ltac:(lia)) as [Hpos1 Hlog1].
  rewrite <- Hm1 in Hpos1, Hlog1.
  set (m2 := round_nearest_even (shr_m mrs1) (loc_of_shr_record mrs1)).
  assert (Hm2 : 0 < m2 /\ (Z.log2 m2 = Z.log2 (shr_m mrs1) \/ Z.log2 m2 = Z.log2 (shr_m mrs1) + 1)).
  { unfold m2.
    destruct (round_nearest_even_cases (shr_m mrs1) (loc_of_shr_record mrs1)) as [-> | ->].
    - split; [lia|auto].
    - split; [lia|]. apply log2_succ_cases. lia. }
  destruct Hm2 as [Hpos2 Hlog2]. clearbody m2.
  rewrite (Zdigits2_log2 m2 Hpos2), fexp_spec.
  destruct (Z.max (Z.log2 m2 + 1 + (e + Zpos k) - 53) (-1074) - (e + Zpos k)) as [|k2|k2] eqn:Hk2;
    cbn [shr shr_m].
  3: exfalso; lia.
  1: { destruct m2 as [|p2|p2]; try lia.
       assert (Hle : (e + Zpos k <=? emax - prec) = true)
         by (apply Z.leb_le; unfold emax, prec; lia).
       rewrite Hle. exists p2, (e + Zpos k). split; [reflexivity|].
       rewrite (digits2_pos_log2 p2). lia. }
  assert (k2 = 1%positive) by lia. subst k2. cbn [iter_pos].
  rewrite shr_1_m by (cbn [shr_m]; lia). cbn [shr_m]. rewrite Z.div2_spec.
  destruct (shiftr_pos_log2 m2 1 Hpos2 ltac:(lia)) as [Hpos3 Hlog3].
  destruct (Z.shiftr m2 1) as [|p3|p3]; try lia.
  assert (Hle : (e + Zpos k + 1 <=? emax - prec) = true)
    by (apply Z.leb_le; unfold emax, prec; lia).
  rewrite Hle. exists p3, (e + Zpos k + 1). split; [reflexivity|].
  rewrite (digits2_pos_log2 p3). lia.
Qed.

Lemma binary_round_finite (s : bool) (m : positive) (e : Z) :
  -1074 < Zpos (digits2_pos m) + e -> Zpos (digits2_pos m) + e < 1024 ->
  exists m' e', binary_round prec emax s m e = S754_finite s m' e'
    /\ Zpos (digits2_pos m) + e <= Zpos (digits2_pos m') + e'
       <= Zpos (digits2_pos m) + e + 1.
Proof.
  intros Hlo Hhi. unfold binary_round, shl_align. rewrite fexp_spec.
  destruct (Z.max (Zpos (digits2_pos m) + e - 53) (-1074) - e) as [|k|k] eqn:Hk.
  1,2: apply binary_round_aux_exact_finite; lia.
  exists (Pos.iter xO m k), (Z.max (Zpos (digits2_pos m) + e - 53) (-1074)).
  split.
  - apply binary_round_aux_canonical.
    + rewrite digits2_pos_iter_xO, fexp_spec. lia.
    + unfold emax, prec. lia.
  - rewrite digits2_pos_iter_xO. lia.
Qed.

(** *** Sign and magnitude of the results of the operations *)

(** [x - y] is not negative when [y <= x] and [x] is finite. *)
Lemma SFsub_nonneg (x y : spec_float) :
  valid_binary x = true -> valid_binary y = true -> SFfinite x = true ->
  SFleb y x = true -> SFnonneg (SF64sub x y) = true.
Proof.
  intros Vx Vy Fx Hle. unfold SFleb in Hle.
  destruct x as [sx|sx| |sx mx ex]; try discriminate Fx;
    destruct y as [sy|sy| |sy my ey]; try discriminate Hle.
  - destruct sx, sy; reflexivity.
  - destruct sy; [reflexivity|discriminate Hle].
  - destruct sy; [reflexivity|discriminate Hle].
  - destruct sx; [discriminate Hle|reflexivity].
  - destruct sy; [reflexivity|discriminate Hle].
  - unfold SF64sub, SFsub. apply binary_normalize_nonneg.
    rewrite !shl_align_value by lia.
    cbn [valid_binary] in Vx, Vy. cbn [SFcompare] in Hle.
    destruct (Z.compare_spec ey ex) as [He|He|He].
    + subst ey. rewrite Z.min_id, Z.sub_diag, !Z.mul_1_r.
      destruct sx, sy; cbn [cond_Zopp]; try discriminate Hle; try lia.
      * destruct (Pos.compare_cont Eq my mx) eqn:Hc; cbn in Hle; try discriminate Hle.
        -- apply Pos.compare_eq in Hc. lia.
        -- assert (Hlt : (mx < my)%positive) by (apply Pos.gt_lt; exact Hc). lia.
      * destruct (Pos.compare_cont Eq my mx) eqn:Hc; try discriminate Hle.
        -- apply Pos.compare_eq in Hc. lia.
        -- assert (Hlt : (my < mx)%positive) by exact Hc. lia.
    + pose proof (bounded_lt _ _ _ _ Vy Vx He) as Hlt.
      rewrite Z.min_r by lia. rewrite Z.sub_diag, Z.mul_1_r.
      destruct sx, sy; cbn [cond_Zopp]; try discriminate Hle; lia.
    + pose proof (bounded_lt _ _ _ _ Vx Vy He) as Hlt.
      rewrite Z.min_l by lia. rewrite Z.sub_diag, Z.mul_1_r.
      destruct sx, sy; cbn [cond_Zopp]; try discriminate Hle; lia.
Qed.

(** [a - c] for [1 <= a < 2^53] and [0 <= c < a]: positive, finite and
    far from the subnormal range. *)
Lemma SFsub_pos_in (ma : positive) (ea : Z) (c : spec_float) :
  bounded prec emax ma ea = true ->
  1 <= Zpos (digits2_pos ma) + ea <= 53 ->
  valid_binary c = true -> SFnonneg c = true ->
  SFltb c (S754_finite false ma ea) = true ->
  exists m e, SF64sub (S754_finite false ma ea) c = S754_finite false m e
    /\ -1000 <= Zpos (digits2_pos m) + e <= 54.
Proof.
  intros Ba Ma Vc Nc Hlt. unfold SFltb in Hlt.
  destruct c as [sc|sc| |sc mc ec]; try discriminate Nc.
  - exists ma, ea. split; [reflexivity|lia].
  - destruct sc; discriminate.
  - destruct sc; [discriminate Nc|]. cbn [valid_binary] in Vc.
    unfold SF64sub, SFsub. rewrite !shl_align_value by lia. cbn [cond_Zopp].
    cbn [SFcompare] in Hlt.
    pose proof (proj1 (bounded_spec _ _) Ba) as Sa.
    pose proof (proj1 (bounded_spec _ _) Vc) as Sc.
    pose proof (digits2_pos_bounds ma) as Da.
    pose proof (digits2_pos_bounds mc) as Dc.
    set (ez := Z.min ea ec).
    set (z := Zpos ma * 2 ^ (ea - ez) - Zpos mc * 2 ^ (ec - ez)).
    assert (Hz : 0 < z).
    { unfold z, ez. destruct (Z.compare_spec ec ea) as [He|He|He]; try discriminate Hlt.
      - subst ec. rewrite Z.min_id, Z.sub_diag, !Z.mul_1_r.
        destruct (Pos.compare_cont Eq mc ma) eqn:Hc; try discriminate Hlt.
        assert ((mc < ma)%positive) by exact Hc. lia.
      - pose proof (bounded_lt _ _ _ _ Vc Ba He).
        rewrite Z.min_r by lia. rewrite Z.sub_diag, Z.mul_1_r. lia. }
    assert (Hup : Z.log2 z <= Z.log2 (Zpos ma) + (ea - ez)).
    { rewrite <- (Z.add_comm (ea - ez)), <- Z.log2_mul_pow2 by (unfold ez; lia).
      apply Z.log2_le_mono. unfold z.
      assert (0 <= Zpos mc * 2 ^ (ec - ez)) by (apply Z.mul_nonneg_nonneg; [lia|apply Z.pow_nonneg; lia]).
      lia. }
    assert (Hlow : -1001 <= Z.log2 z + ez).
    { destruct (Z_le_gt_dec (-1001) ez) as [Hez|Hez].
      - pose proof (Z.log2_nonneg z). lia.
      - assert (Hec : ez = ec) by (unfold ez; lia).
        assert (Hda : Zpos (digits2_pos ma) = 53) by lia.
        rewrite Hda in Da. change (2 ^ (53 - 1)) with 4503599627370496 in Da.
        assert (Hmc : Zpos mc < 2 ^ 53).
        { apply Z.lt_le_trans with (2 ^ Zpos (digits2_pos mc)); [lia|].
          apply Z.pow_le_mono_r; lia. }
        change (2 ^ 53) with 9007199254740992 in Hmc.
        assert (Hpow : 2 ^ (51 + ea - ec) <= z).
        { unfold z. rewrite Hec, Z.sub_diag, Z.mul_1_r.
          replace (51 + ea - ec) with (53 + (ea - ec - 2)) by lia.
          replace (ea - ec) with (2 + (ea - ec - 2)) at 2 by lia.
          rewrite !Z.pow_add_r by lia.
          change (2 ^ 53) with 9007199254740992. change (2 ^ 2) with 4.
          assert (0 < 2 ^ (ea - ec - 2)) by (apply Z.pow_pos_nonneg; lia).
          nia. }
        apply Z.log2_le_pow2 in Hpow; lia. }
    destruct z as [|zp|zp] eqn:Ez; try lia.
    cbn [binary_normalize].
    pose proof (digits2_pos_log2 zp) as Hdz.
    pose proof (digits2_pos_log2 ma) as Hdm.
    destruct (binary_round_finite false zp ez) as (m & e & Hr & Hm); try lia.
    exists m, e. split; [exact Hr|lia].
Qed.

(** The product of two positive numbers of bounded magnitude neither
    underflows to zero nor overflows. *)
Lemma SFmul_pos_in (l1 h1 l2 h2 : Z) (x y : spec_float) :
  SFpos_in l1 h1 x -> SFpos_in l2 h2 y ->
  -1074 < l1 + l2 - 1 -> h1 + h2 < 1024 ->
  exists m e, SF64mul x y = S754_finite false m e
    /\ l1 + l2 - 1 <= Zpos (digits2_pos m) + e <= h1 + h2 + 1.
Proof.
  intros (m1 & e1 & -> & B1 & M1) (m2 & e2 & -> & B2 & M2) Hlo Hhi.
  apply bounded_spec in B1, B2.
  unfold SF64mul, SFmul. cbn [xorb].
  assert (Hd : Zpos (digits2_pos m1) + Zpos (digits2_pos m2) - 1
               <= Zpos (digits2_pos (m1 * m2))
               <= Zpos (digits2_pos m1) + Zpos (digits2_pos m2)).
  { rewrite !digits2_pos_log2, Pos2Z.inj_mul.
    pose proof (Z.log2_mul_below (Zpos m1) (Zpos m2) ltac:(lia) ltac:(lia)).
    pose proof (Z.log2_mul_above (Zpos m1) (Zpos m2) ltac:(lia) ltac:(lia)). lia. }
  destruct (binary_round_aux_exact_finite false (m1 * m2) (e1 + e2))
    as (m & e & Hr & Hm); try lia.
  exists m, e. split; [exact Hr|lia].
Qed.

(** A non-negative number divided by a positive finite one is not
    negative. *)
Lemma SFdiv_nonneg (x y : spec_float) (lo hi : Z) :
  SFnonneg x = true -> SFpos_in lo hi y -> SFnonneg (SF64div x y) = true.
Proof.
  intros Hx (my & ey & -> & _ & _).
  destruct x as [sx|sx| |sx mx ex]; try discriminate Hx; cbn in Hx.
  - reflexivity.
  - destruct sx; [discriminate Hx|reflexivity].
  - destruct sx; [discriminate Hx|].
    unfold SF64div, SFdiv, SFdiv_core_binary. cbn [xorb].
    set (m' := match ex - ey - _ with Zpos _ => _ | Z0 => _ | Zneg _ => _ end).
    assert (Hm' : 0 <= m').
    { unfold m'. destruct (ex - ey - _) as [|p|p]; try lia. apply Z.shiftl_nonneg. lia. }
    destruct (Z.div_eucl m' (Zpos my)) as [q r] eqn:Hq.
    assert (Hq0 : 0 <= q).
    { replace q with (m' / Zpos my) by (unfold Z.div; now rewrite Hq).
      apply Z.div_pos; lia. }
    pose proof (binary_round_aux_signed false q
                  (Z.min (fexp prec emax (Zdigits2 (Zpos mx) + ex - (Zdigits2 (Zpos my) + ey))) (ex - ey))
                  (new_location (Zpos my) r) Hq0) as Hs.
    destruct (binary_round_aux _ _ _ _ _ _) as [s|s| |s m e]; cbn in Hs |- *;
      try discriminate Hs; destruct s; trivial; discriminate Hs.
Qed.

(** *** Conversions between integers and doubles *)

(** Integers of at most 53 bits convert exactly. *)
Lemma binary_normalize_exact (m : positive) :
  Zpos (digits2_pos m) <= 53 ->
  exists m' e', binary_normalize prec emax (Zpos m) 0 false = S754_finite false m' e'
    /\ bounded prec emax m' e' = true
    /\ e' <= 0
    /\ Zpos m' = Zpos m * 2 ^ (- e')
    /\ Zpos (digits2_pos m') + e' = Zpos (digits2_pos m).
Proof.
  intros Hd. cbn [binary_normalize]. unfold binary_round.
  assert (Hf : fexp prec emax (Zpos (digits2_pos m) + 0) = Zpos (digits2_pos m) - 53).
  { rewrite fexp_spec. lia. }
  rewrite Hf. unfold shl_align.
  destruct (Zpos (digits2_pos m) - 53 - 0) as [|k|k] eqn:Hk; try lia.
  - exists m, 0.
    assert (Hc : fexp prec emax (Zpos (digits2_pos m) + 0) = 0) by lia.
    repeat split; try lia.
    + apply binary_round_aux_canonical; [exact Hc|unfold prec, emax; lia].
    + unfold bounded, canonical_mantissa. rewrite Hc. reflexivity.
  - exists (Pos.iter xO m k), (Zpos (digits2_pos m) - 53).
    assert (Hc : fexp prec emax (Zpos (digits2_pos (Pos.iter xO m k)) + (Zpos (digits2_pos m) - 53))
                 = Zpos (digits2_pos m) - 53).
    { rewrite digits2_pos_iter_xO, fexp_spec. lia. }
    repeat split; try lia.
    + apply binary_round_aux_canonical; [exact Hc|unfold prec, emax; lia].
    + unfold bounded, canonical_mantissa. rewrite Hc, Z.eqb_refl.
      apply Z.leb_le. unfold prec, emax. lia.
    + rewrite iter_xO_value. f_equal. f_equal. lia.
    + rewrite digits2_pos_iter_xO. lia.
Qed.

Lemma Prim2SF_double_of_Z (z : positive) :
  Zpos z < 2 ^ 53 ->
  exists m e, Prim2SF (double_of_Z (Zpos z)) = S754_finite false m e
    /\ bounded prec emax m e = true
    /\ e <= 0
    /\ Zpos m = Zpos z * 2 ^ (- e)
    /\ Zpos (digits2_pos m) + e = Zpos (digits2_pos z).
Proof.
  intros Hz. unfold double_of_Z.
  destruct (binary_normalize_exact z (digits2_pos_le_53 z Hz)) as (m & e & Hn & Hb & Hrest).
  exists m, e. rewrite Hn, Prim2SF_SF2Prim by exact Hb. auto.
Qed.

Lemma double_of_Z_finite (z : Z) :
  0 <= z < 2 ^ 53 -> SFfinite (Prim2SF (double_of_Z z)) = true.
Proof.
  intros Hz. destruct z as [|m|m]; try lia.
  - reflexivity.
  - destruct (Prim2SF_double_of_Z m (proj2 Hz)) as (m' & e' & -> & _). reflexivity.
Qed.

(** [(mal_uint64)ceil(p)] for a positive finite [p] below 2^63 is the
    integer ceiling of [p], and it is above 0. *)
Lemma ceil_positive_u64 (p : double) (m : positive) (e : Z) :
  Prim2SF p = S754_finite false m e -> Zpos (digits2_pos m) + e <= 63 ->
  u64_of_double (ceil p) = Some (Zceil_finite false m e) /\ 0 < Zceil_finite false m e.
Proof.
  intros Hp Hmag.
  pose proof (Prim2SF_valid p) as Hv. rewrite Hp in Hv. cbn [valid_binary] in Hv.
  apply bounded_spec in Hv.
  pose proof (digits2_pos_bounds m) as Dm.
  unfold ceil. rewrite Hp.
  destruct (e <? 0) eqn:He.
  - apply Z.ltb_lt in He.
    unfold Zceil_finite. cbn [cond_Zopp].
    rewrite Z.shiftr_div_pow2 by lia.
    assert (Hpow : 0 < 2 ^ (- e)) by (apply Z.pow_pos_nonneg; lia).
    assert (Hq : - Zpos m <= - Zpos m / 2 ^ (- e) <= -1).
    { split.
      - apply Z.div_le_lower_bound; [lia|]. nia.
      - assert (- Zpos m / 2 ^ (- e) < 0); [|lia].
        apply Z.div_lt_upper_bound; lia. }
    destruct (- (- Zpos m / 2 ^ (- e))) as [|z|z] eqn:Ez; try lia.
    assert (Hz53 : Zpos z < 2 ^ 53).
    { apply Z.le_lt_trans with (Zpos m); [lia|].
      apply Z.lt_le_trans with (2 ^ Zpos (digits2_pos m)); [lia|].
      apply Z.pow_le_mono_r; lia. }
    destruct (Prim2SF_double_of_Z z Hz53) as (m' & e' & Hn & Hb & He' & Hval & _).
    unfold double_of_Z in Hn. unfold u64_of_double. rewrite Hn.
    unfold Zfloor_finite. cbn [cond_Zopp].
    rewrite Hval, Z.shiftr_div_pow2, Z.div_mul by (try apply Z.pow_nonzero; lia).
    change (2 ^ 53) with 9007199254740992 in Hz53.
    assert (Hr : (0 <=? Zpos z) && (Zpos z <? 2 ^ 64) = true).
    { apply andb_true_iff. change (2 ^ 64) with 18446744073709551616.
      split; [apply Z.leb_le|apply Z.ltb_lt]; lia. }
    rewrite Hr. split; [reflexivity|lia].
  - apply Z.ltb_ge in He.
    unfold u64_of_double. rewrite Hp. unfold Zfloor_finite, Zceil_finite. cbn [cond_Zopp].
    rewrite !Z.shiftr_opp_r, !Z.shiftl_mul_pow2 by lia.
    assert (Hpow : 0 < 2 ^ e) by (apply Z.pow_pos_nonneg; lia).
    assert (Hlt : Zpos m * 2 ^ e < 2 ^ 64).
    { apply Z.lt_le_trans with (2 ^ Zpos (digits2_pos m) * 2 ^ e); [nia|].
      rewrite <- Z.pow_add_r by lia. apply Z.pow_le_mono_r; lia. }
    assert (Hr : (0 <=? Zpos m * 2 ^ e) && (Zpos m * 2 ^ e <? 2 ^ 64) = true).
    { apply andb_true_iff. split; [apply Z.leb_le|apply Z.ltb_lt]; nia. }
    rewrite Hr. split; [f_equal; ring|nia].
Qed.

(** *** The primitive operations *)

Lemma leb_ltb (x y : double) : (x <=? y)%float = true -> (y <? x)%float = false.
Proof. rewrite leb_spec, ltb_spec. apply SFleb_SFltb. Qed.

(** The same facts on the primitive operations. *)
Lemma sub_nonneg (x y : double) :
  SFfinite (Prim2SF x) = true -> (y <=? x)%float = true -> (0 <=? x - y)%float = true.
Proof.
  intros Fx Hle. rewrite leb_spec in *. rewrite sub_spec.
  change (Prim2SF 0) with (S754_zero false). rewrite SFleb_zero.
  apply SFsub_nonneg; auto using Prim2SF_valid.
Qed.

(** A ratio within the bounds is at least 2^(-10) and below 2^7. *)
Lemma ratio_in_bounds_pos_in (r : double) :
  (MAL_RESAMPLER_MIN_RATIO <=? r)%float = true ->
  (r <=? MAL_RESAMPLER_MAX_RATIO)%float = true ->
  SFpos_in (-9) 7 (Prim2SF r).
Proof.
  rewrite !leb_spec.
  change (Prim2SF MAL_RESAMPLER_MIN_RATIO) with (S754_finite false 4611686018427388 (-62)).
  change (Prim2SF MAL_RESAMPLER_MAX_RATIO) with (S754_finite false 7036874417766400 (-46)).
  pose proof (Prim2SF_valid r) as Hv.
  destruct (Prim2SF r) as [s|s| |s m e]; intros Hmin Hmax.
  - destruct s; discriminate Hmin.
  - destruct s; [discriminate Hmin|discriminate Hmax].
  - discriminate Hmin.
  - destruct s; [discriminate Hmin|]. cbn [valid_binary] in Hv.
    exists m, e. repeat split; trivial.
    + apply (SFleb_mag 4611686018427388 m (-62) e) in Hmin; trivial.
    + apply (SFleb_mag m 7036874417766400 e (-46)) in Hmax; trivial.
Qed.

(** The arithmetic of the uncovered branch of
    [mal_resampler_get_required_input_frame_count]: both assertions hold
    and the conversion is defined. *)
Lemma required_frames_positive (o : Z) (cot r : double) :
  0 < o < 2 ^ 53 ->
  (MAL_RESAMPLER_MIN_RATIO <=? r)%float = true ->
  (r <=? MAL_RESAMPLER_MAX_RATIO)%float = true ->
  (0 <=? cot)%float = true ->
  (double_of_Z o <=? cot)%float = false ->
  (0 <? double_of_Z o - cot)%float = true
  /\ exists n, u64_of_double (ceil ((double_of_Z o - cot) * r)%float) = Some n /\ 0 < n.
Proof.
  intros Ho Hmin Hmax Hcot Hcov.
  destruct o as [|z|z]; try lia.
  destruct (Prim2SF_double_of_Z z (proj2 Ho)) as (ma & ea & Ha & Ba & _ & _ & Hmag).
  pose proof (digits2_pos_le_53 z (proj2 Ho)) as Hz53.
  rewrite leb_spec in Hcot, Hcov. rewrite Ha in Hcov.
  change (Prim2SF 0) with (S754_zero false) in Hcot. rewrite SFleb_zero in Hcot.
  assert (Hlt : SFltb (Prim2SF cot) (S754_finite false ma ea) = true).
  { apply SFleb_false_SFltb; trivial.
    intros Hn. apply SFcompare_None in Hn. destruct Hn as [Hn|Hn]; [discriminate Hn|].
    rewrite Hn in Hcot. discriminate Hcot. }
  destruct (SFsub_pos_in ma ea (Prim2SF cot) Ba ltac:(lia) (Prim2SF_valid cot) Hcot Hlt)
    as (md & ed & Hd & Hdm).
  rewrite <- Ha, <- sub_spec in Hd.
  split.
  - rewrite ltb_spec, Hd. reflexivity.
  - assert (Pd : SFpos_in (-1000) 54 (Prim2SF (double_of_Z (Zpos z) - cot)%float)).
    { exists md, ed. repeat split; try lia; trivial.
      pose proof (Prim2SF_valid (double_of_Z (Zpos z) - cot)%float) as Hv.
      rewrite Hd in Hv. exact Hv. }
    destruct (SFmul_pos_in _ _ _ _ _ _ Pd (ratio_in_bounds_pos_in r Hmin Hmax))
      as (m & e & Hp & Hpm); try lia.
    rewrite <- mul_spec in Hp.
    exists (Zceil_finite false m e).
    apply (ceil_positive_u64 _ m e Hp). lia.
Qed.

End Binary64.

Import Binary64.

(** The models of [floor], [ceil] and the conversions on sample values. *)
Example floor_ceil_values :
  (floor 2.5 = 2 /\ floor (-2.5) = -3 /\ floor 7 = 7
   /\ ceil 2.5 = 3 /\ ceil (-2.5) = -2 /\ ceil 7 = 7)%float.
Proof. repeat split; vm_compute; reflexivity. Qed.

Example u64_of_double_values :
  u64_of_double 2.75%float = Some 2
  /\ u64_of_double (-0.75)%float = Some 0
  /\ u64_of_double (-1)%float = None
  /\ u64_of_double (double_of_Z (2 ^ 64 - 1)) = None
  /\ u64_of_double nan = None.
Proof. repeat split; vm_compute; reflexivity. Qed.

Example double_of_Z_values :
  double_of_Z 48000 = 48000%float
  /\ double_of_Z (2 ^ 53 + 1) = 9007199254740992%float
  /\ double_of_Z (2 ^ 64 - 1) = 18446744073709551616%float.
Proof. repeat split; vm_compute; reflexivity. Qed.

(** ** Running computations *)

Lemma bind_returns {A B : Type} (c : M A) (k : A -> M B) (m : memory) (a : A) (m' : memory) :
  c m = Returns a m' -> bind c k m = k a m'.
Proof. intros H. unfold bind. now rewrite H. Qed.

Lemma load_addr (a : Z) (m : memory) : load (Addr a) m = Returns (engine m) m.
Proof. reflexivity. Qed.

Lemma preserves_ret {A : Type} (a : A) : preserves_memory (ret a).
Proof. intros m. reflexivity. Qed.

Lemma preserves_bind {A B : Type} (c : M A) (k : A -> M B) :
  preserves_memory c -> (forall a, preserves_memory (k a)) -> preserves_memory (bind c k).
Proof.
  intros Hc Hk m. unfold bind. specialize (Hc m).
  destruct (c m) as [a m'| |]; trivial.
  subst m'. apply Hk.
Qed.

Lemma preserves_load (p : pointer) : preserves_memory (load p).
Proof. intros m. destruct p; reflexivity. Qed.

Lemma preserves_assert (b : bool) : preserves_memory (mal_assert b).
Proof. intros m. unfold mal_assert. destruct b; reflexivity. Qed.

Lemma preserves_to_mal_uint64 (x : double) : preserves_memory (to_mal_uint64 x).
Proof. intros m. unfold to_mal_uint64. destruct (u64_of_double x); reflexivity. Qed.

Lemma preserves_if {A : Type} (b : bool) (c1 c2 : M A) :
  preserves_memory c1 -> preserves_memory c2 -> preserves_memory (if b then c1 else c2).
Proof. destruct b; trivial. Qed.

Create HintDb query discriminated.
#[local] Hint Resolve preserves_ret preserves_bind preserves_load preserves_assert
  preserves_to_mal_uint64 preserves_if : query.

Lemma preserves_calculate_cached_input_time (p : pointer) :
  preserves_memory (mal_resampler__calculate_cached_input_time p).
Proof.
  unfold mal_resampler__calculate_cached_input_time.
  apply preserves_bind; auto with query.
  intros r. destruct (endOfInputMode (config r)); auto with query.
Qed.

Lemma preserves_calculate_cached_output_time (p : pointer) :
  preserves_memory (mal_resampler__calculate_cached_output_time p).
Proof.
  unfold mal_resampler__calculate_cached_output_time.
  apply preserves_bind; [apply preserves_calculate_cached_input_time|].
  intros t. auto with query.
Qed.

#[local] Hint Resolve preserves_calculate_cached_input_time
  preserves_calculate_cached_output_time : query.

Lemma calculate_cached_input_time_returns (a : Z) (m : memory) :
  exists t, mal_resampler__calculate_cached_input_time (Addr a) m = Returns t m.
Proof.
  unfold mal_resampler__calculate_cached_input_time, bind. rewrite load_addr.
  destruct (endOfInputMode (config (engine m))); eexists; reflexivity.
Qed.

Lemma calculate_cached_output_time_returns (a : Z) (m : memory) :
  exists t, mal_resampler__calculate_cached_input_time (Addr a) m = Returns t m
    /\ mal_resampler__calculate_cached_output_time (Addr a) m
       = Returns (t / ratio (config (engine m)))%float m.
Proof.
  destruct (calculate_cached_input_time_returns a m) as [t Ht].
  exists t. split; [exact Ht|].
  unfold mal_resampler__calculate_cached_output_time.
  rewrite (bind_returns _ _ _ _ _ Ht). reflexivity.
Qed.

(** ** Construction and the backend pointers *)

(** Closes a goal [c m = Returns res m' -> P m'] once [c m] has been
    reduced to a returned value. *)
Ltac returned := let H := fresh "H" in intros H; inversion H; subst; clear H; auto.

(** Construction leaves the backend pointers paired, whatever it returns. *)
Lemma init_backends_paired (pConfig : option mal_resampler_config) (a : Z)
    (m : memory) (res : mal_result) (m' : memory) :
  mal_resampler_init pConfig (Addr a) m = Returns res m' ->
  backends_paired (engine m') = true.
Proof.
  unfold mal_resampler_init, mal_zero_object, bind, ret; cbn.
  destruct pConfig as [cfg|]; cbn; [|returned].
  destruct (negb (mal_format_eqb (format cfg) mal_format_f32)
            && negb (mal_format_eqb (format cfg) mal_format_s16)); cbn; [returned|].
  destruct (channels cfg =? 0); cbn; [returned|].
  destruct (ratio cfg =? 0)%float; cbn.
  - destruct ((sampleRateIn cfg =? 0) || (sampleRateOut cfg =? 0)); cbn; [returned|].
    destruct (is_null (onRead cfg)); cbn; [returned|].
    destruct (algorithm cfg); cbn; returned.
  - destruct (is_null (onRead cfg)); cbn; [returned|].
    destruct (algorithm cfg); cbn; returned.
Qed.

(** Construction leaves the cache empty and asks nothing of the client. *)
Lemma init_empty_cache (pConfig : option mal_resampler_config) (a : Z)
    (m : memory) (res : mal_result) (m' : memory) :
  mal_resampler_init pConfig (Addr a) m = Returns res m' ->
  cacheLengthInFrames (engine m') = 0 /\ windowLength (engine m') = 0
  /\ windowTime (engine m') = 0%float /\ client_reads m' = client_reads m.
Proof.
  unfold mal_resampler_init, mal_zero_object, bind, ret; cbn.
  destruct pConfig as [cfg|]; cbn; [|returned].
  destruct (negb (mal_format_eqb (format cfg) mal_format_f32)
            && negb (mal_format_eqb (format cfg) mal_format_s16)); cbn; [returned|].
  destruct (channels cfg =? 0); cbn; [returned|].
  destruct (ratio cfg =? 0)%float; cbn.
  - destruct ((sampleRateIn cfg =? 0) || (sampleRateOut cfg =? 0)); cbn; [returned|].
    destruct (is_null (onRead cfg)); cbn; [returned|].
    destruct (algorithm cfg); cbn; returned.
  - destruct (is_null (onRead cfg)); cbn; [returned|].
    destruct (algorithm cfg); cbn; returned.
Qed.

(** The rate mutators do not touch the backend pointers. *)
Lemma set_rate_backends (p : pointer) (i o : Z) (m : memory) (res : mal_result) (m' : memory) :
  mal_resampler_set_rate p i o m = Returns res m' ->
  read (engine m') = read (engine m) /\ seek (engine m') = seek (engine m).
Proof.
  unfold mal_resampler_set_rate, bind, ret.
  destruct p as [|a]; cbn; [returned|].
  destruct ((i =? 0) || (o =? 0)); cbn; [returned|].
  destruct (_ || _); cbn; returned.
Qed.

Lemma set_rate_ratio_backends (p : pointer) (x : double) (m : memory)
    (res : mal_result) (m' : memory) :
  mal_resampler_set_rate_ratio p x m = Returns res m' ->
  read (engine m') = read (engine m) /\ seek (engine m') = seek (engine m).
Proof.
  unfold mal_resampler_set_rate_ratio, bind, ret.
  destruct p as [|a]; cbn; [returned|].
  destruct (_ || _); cbn; returned.
Qed.

(** The example engine is the one construction produces. *)
Lemma init_example_engine :
  mal_resampler_init (Some (example_config 48000 24000 0%float)) (Addr 0) fresh_memory
  = Returns MAL_SUCCESS
      (example_memory (example_engine 0 0 0%float (example_config 48000 24000 2%float))).
Proof. vm_compute. reflexivity. Qed.

(** ** Read and seek *)

(** The backends are placeholders: a call that reaches one returns 0 and
    leaves the memory alone, unless an assertion of the backend fails. *)
Lemma call_read_placeholder (f : mal_resampler_read_proc) (p : pointer) (n : Z)
    (pp : pointer) (m : memory) :
  call_read f p n pp m = Returns 0 m \/ call_read f p n pp m = AssertionFailed.
Proof.
  destruct f, p as [|a]; cbn; auto;
    unfold mal_resampler_read__linear, mal_resampler_read__sinc, bind, mal_assert, ret; cbn;
    destruct (is_null (onRead (config (engine m)))); cbn; auto;
    destruct (0 <? n); cbn; auto;
    destruct (is_null pp); cbn; auto.
Qed.

Lemma call_seek_placeholder (f : mal_resampler_seek_proc) (p : pointer) (n options : Z)
    (m : memory) :
  call_seek f p n options m = Returns 0 m \/ call_seek f p n options m = AssertionFailed.
Proof.
  destruct f, p as [|a]; cbn; auto;
    unfold mal_resampler_seek__linear, mal_resampler_seek__sinc, bind, mal_assert, ret; cbn;
    destruct (is_null (onRead (config (engine m)))); cbn; auto;
    destruct (0 <? n); cbn; auto.
Qed.

(** C9. [mal_resampler_read] and [mal_resampler_seek] called with
    [frameCount = 0] return 0 at once: the memory, and with it the
    engine and the record of client reads, is untouched. *)
Theorem read_seek_zero_frames (p : pointer) (ppFrames : pointer) (options : Z) (m : memory) :
  mal_resampler_read p 0 ppFrames m = Returns 0 m
  /\ mal_resampler_seek p 0 options m = Returns 0 m.
Proof.
  unfold mal_resampler_read, mal_resampler_seek, null_or_unset, bind, ret.
  destruct p as [|a]; simpl.
  - split; reflexivity.
  - split.
    + destruct (read (engine m)); reflexivity.
    + destruct (seek (engine m)); reflexivity.
Qed.

(** C5. On an engine whose backend pointers are paired,
    [mal_resampler_read] with [ppFrames = NULL] is
    [mal_resampler_seek] with [options = 0]: same returned count, same
    memory afterwards, same failure if any. *)
Theorem read_null_is_seek (p : pointer) (frameCount : Z) (m : memory) :
  backends_paired (engine m) = true ->
  mal_resampler_read p frameCount NULL m = mal_resampler_seek p frameCount 0 m.
Proof.
  intros Hpair. unfold backends_paired in Hpair.
  destruct p as [|a]; [reflexivity|].
  unfold mal_resampler_read, mal_resampler_seek, null_or_unset, bind, ret; cbn.
  destruct (read (engine m)) as [f|], (seek (engine m)) as [g|] eqn:Hseek;
    try discriminate; cbn.
  - destruct (frameCount =? 0); cbn; rewrite ?Hseek; reflexivity.
  - reflexivity.
Qed.

Lemma read_null_is_seek_witness :
  backends_paired
    (engine (example_memory (example_engine 0 0 0%float (example_config 48000 24000 2%float))))
  = true
  /\ mal_resampler_read (Addr 0) 16 NULL
       (example_memory (example_engine 0 0 0%float (example_config 48000 24000 2%float)))
     = mal_resampler_seek (Addr 0) 16 0
       (example_memory (example_engine 0 0 0%float (example_config 48000 24000 2%float))).
Proof.
  split; [reflexivity|].
  apply (read_null_is_seek (Addr 0) 16
           (example_memory (example_engine 0 0 0%float (example_config 48000 24000 2%float)))).
  reflexivity.
Defined.

(** ** The queries *)

Lemma get_cached_input_time_total (p : pointer) :
  total_query (mal_resampler_get_cached_input_time p).
Proof.
  intros m. unfold mal_resampler_get_cached_input_time.
  destruct p as [|a]; [eexists; reflexivity|].
  exact (calculate_cached_input_time_returns a m).
Qed.

Lemma get_cached_output_time_total (p : pointer) :
  total_query (mal_resampler_get_cached_output_time p).
Proof.
  intros m. unfold mal_resampler_get_cached_output_time.
  destruct p as [|a]; [eexists; reflexivity|].
  destruct (calculate_cached_output_time_returns a m) as [t [_ Ht]].
  exists (t / ratio (config (engine m)))%float. exact Ht.
Qed.

Lemma total_query_preserves {A : Type} (c : M A) : total_query c -> preserves_memory c.
Proof. intros Hc m. destruct (Hc m) as [v Hv]. now rewrite Hv. Qed.

(** C10. The six queries are read-only: whenever one returns, the memory
    is the one it was called in, so no field of the engine has changed
    and no client read was recorded; the two time queries always return. *)
Theorem queries_preserve_memory (p : pointer) (n : Z) :
  preserves_memory (mal_resampler_get_cached_input_frame_count p)
  /\ preserves_memory (mal_resampler_get_cached_output_frame_count p)
  /\ total_query (mal_resampler_get_cached_input_time p)
  /\ total_query (mal_resampler_get_cached_output_time p)
  /\ preserves_memory (mal_resampler_get_required_input_frame_count p n)
  /\ preserves_memory (mal_resampler_get_expected_output_frame_count p n).
Proof.
  pose proof (get_cached_input_time_total p) as Hin.
  pose proof (get_cached_output_time_total p) as Hout.
  repeat split; trivial.
  - unfold mal_resampler_get_cached_input_frame_count.
    apply preserves_bind; [now apply total_query_preserves|auto with query].
  - unfold mal_resampler_get_cached_output_frame_count.
    apply preserves_bind; [now apply total_query_preserves|auto with query].
  - unfold mal_resampler_get_required_input_frame_count.
    apply preserves_if; [auto with query|].
    apply preserves_if; [auto with query|].
    apply preserves_bind; [auto with query|]. intros cot.
    apply preserves_if; [auto with query|].
    apply preserves_bind; [auto with query|]. intros _.
    apply preserves_bind; [auto with query|]. intros r.
    apply preserves_bind; [auto with query|]. intros k.
    apply preserves_bind; auto with query.
  - unfold mal_resampler_get_expected_output_frame_count.
    apply preserves_if; [auto with query|].
    apply preserves_if; [auto with query|].
    apply preserves_bind; [auto with query|]. intros t.
    apply preserves_bind; auto with query.
Qed.

(** C7. The cached input frame count is the cached input time rounded up
    and the cached output frame count is the cached output time rounded
    down, each converted to [mal_uint64]; behind a non-NULL pointer the
    cached output time is the cached input time divided by the engine's
    current ratio. *)
Theorem query_consistency (p : pointer) (a : Z) (m : memory) :
  (exists t, mal_resampler_get_cached_input_time p m = Returns t m
     /\ mal_resampler_get_cached_input_frame_count p m = to_mal_uint64 (ceil t) m)
  /\ (exists t, mal_resampler_get_cached_output_time p m = Returns t m
     /\ mal_resampler_get_cached_output_frame_count p m = to_mal_uint64 (floor t) m)
  /\ (exists t, mal_resampler_get_cached_input_time (Addr a) m = Returns t m
     /\ mal_resampler_get_cached_output_time (Addr a) m
        = Returns (t / ratio (config (engine m)))%float m).
Proof.
  repeat split.
  - destruct (get_cached_input_time_total p m) as [t Ht]. exists t. split; [exact Ht|].
    unfold mal_resampler_get_cached_input_frame_count.
    now rewrite (bind_returns _ _ _ _ _ Ht).
  - destruct (get_cached_output_time_total p m) as [t Ht]. exists t. split; [exact Ht|].
    unfold mal_resampler_get_cached_output_frame_count.
    now rewrite (bind_returns _ _ _ _ _ Ht).
  - exact (calculate_cached_output_time_returns a m).
Qed.

(** C4. With [inputFrameCount = 0] the expected output frame count is 0
    whatever is cached; with any other count it is
    [(cachedInputTime + inputFrameCount) / ratio] rounded down and
    converted to [mal_uint64], [cachedInputTime] being the value of
    [mal_resampler_get_cached_input_time]. *)
Theorem expected_output_frame_count_spec (a : Z) (m : memory) (inputFrameCount : Z) :
  exists t, mal_resampler_get_cached_input_time (Addr a) m = Returns t m
    /\ mal_resampler_get_expected_output_frame_count (Addr a) inputFrameCount m
       = if inputFrameCount =? 0 then Returns 0 m
         else to_mal_uint64
                (floor ((t + double_of_Z inputFrameCount) / ratio (config (engine m)))%float) m.
Proof.
  destruct (calculate_cached_input_time_returns a m) as [t Ht].
  exists t. split; [exact Ht|].
  unfold mal_resampler_get_expected_output_frame_count.
  change (is_null (Addr a)) with false. cbv iota.
  destruct (inputFrameCount =? 0); [reflexivity|].
  rewrite (bind_returns _ _ _ _ _ Ht). reflexivity.
Qed.

(** C4, as stated, fails for [inputFrameCount = 0], also on engines that
    satisfy the invariants of the data model: with 10 frames cached, no
    window and ratio 1 the formula gives 10 and the call returns 0. *)
Lemma expected_output_frame_count_zero_input :
  ~ (forall (a : Z) (m : memory) (inputFrameCount : Z),
       data_model_invariants (engine m) = true ->
       exists t, mal_resampler_get_cached_input_time (Addr a) m = Returns t m
         /\ mal_resampler_get_expected_output_frame_count (Addr a) inputFrameCount m
            = to_mal_uint64
                (floor ((t + double_of_Z inputFrameCount) / ratio (config (engine m)))%float) m).
Proof.
  intros H.
  destruct (H 0 (example_memory (example_engine 10 0 0%float (example_config 48000 48000 1%float))) 0)
    as [t [Ht He]].
  - vm_compute. reflexivity.
  - vm_compute in Ht. injection Ht as <-.
    vm_compute in He. discriminate He.
Qed.

(** C6. With [outputFrameCount = 0], or when the cached output time
    covers [outputFrameCount], the required input frame count is 0.
    Otherwise the call returns exactly when its two assertions hold and
    the conversion to [mal_uint64] is defined; what it returns is
    [(outputFrameCount - cachedOutputTime) * ratio] rounded up, a count
    above 0, and the memory is unchanged. It does return whenever the
    ratio is within its bounds, the cached output time is not negative
    and [outputFrameCount] is below 2^53. *)
Theorem required_input_frame_count_spec (a : Z) (m : memory) (outputFrameCount : Z) :
  exists cot, mal_resampler_get_cached_output_time (Addr a) m = Returns cot m
    /\ if (outputFrameCount =? 0) || (double_of_Z outputFrameCount <=? cot)%float
       then mal_resampler_get_required_input_frame_count (Addr a) outputFrameCount m
            = Returns 0 m
       else
         (forall n m',
            mal_resampler_get_required_input_frame_count (Addr a) outputFrameCount m
            = Returns n m'
            <-> (m' = m
                 /\ (0 <? double_of_Z outputFrameCount - cot)%float = true
                 /\ u64_of_double
                      (ceil ((double_of_Z outputFrameCount - cot)
                             * ratio (config (engine m)))%float)
                    = Some n
                 /\ 0 < n))
         /\ ((MAL_RESAMPLER_MIN_RATIO <=? ratio (config (engine m)))%float = true ->
             (ratio (config (engine m)) <=? MAL_RESAMPLER_MAX_RATIO)%float = true ->
             (0 <=? cot)%float = true ->
             0 < outputFrameCount < 2 ^ 53 ->
             exists n,
               mal_resampler_get_required_input_frame_count (Addr a) outputFrameCount m
               = Returns n m
               /\ 0 < n).
Proof.
  destruct (calculate_cached_output_time_returns a m) as [t [_ Ht]].
  exists (t / ratio (config (engine m)))%float. split; [exact Ht|].
  set (cot := (t / ratio (config (engine m)))%float) in *.
  unfold mal_resampler_get_required_input_frame_count.
  change (is_null (Addr a)) with false. cbv iota.
  destruct (outputFrameCount =? 0); [reflexivity|].
  rewrite (bind_returns _ _ _ _ _ Ht). cbn [orb].
  destruct (double_of_Z outputFrameCount <=? cot)%float eqn:Hcov; [reflexivity|].
  assert (Hiff : forall n m',
    (mal_assert (0 <? double_of_Z outputFrameCount - cot)%float;;
     r <- load (Addr a);;
     requiredInputFrames <-
       to_mal_uint64 (ceil ((double_of_Z outputFrameCount - cot) * ratio (config r))%float);;
     mal_assert (0 <? requiredInputFrames);; ret requiredInputFrames) m = Returns n m'
    <-> (m' = m
         /\ (0 <? double_of_Z outputFrameCount - cot)%float = true
         /\ u64_of_double
              (ceil ((double_of_Z outputFrameCount - cot) * ratio (config (engine m)))%float)
            = Some n
         /\ 0 < n)).
  { intros n m'. unfold bind, mal_assert, to_mal_uint64, ret, load.
    destruct (0 <? double_of_Z outputFrameCount - cot)%float.
    2:{ split; [discriminate|]. intros (_ & H & _); discriminate H. }
    destruct (u64_of_double _) as [k|].
    2:{ split; [discriminate|]. intros (_ & _ & H & _); discriminate H. }
    destruct (0 <? k) eqn:Hk.
    - apply Z.ltb_lt in Hk. split.
      + intros H; injection H as <- <-. auto.
      + intros (-> & _ & H & _). injection H as <-. reflexivity.
    - apply Z.ltb_ge in Hk. split; [discriminate|].
      intros (_ & _ & H & Hn). injection H as <-. lia. }
  split; [exact Hiff|].
  intros Hmin Hmax Hcot Ho.
  destruct (required_frames_positive outputFrameCount cot (ratio (config (engine m)))
              Ho Hmin Hmax Hcot Hcov) as (Hd & n & Hn & Hpos).
  exists n. split; [|exact Hpos].
  apply Hiff. auto.
Qed.

(** C6, as stated, fails for [outputFrameCount = 0] on an engine whose
    window is not yet filled, which the invariants of the data model
    allow: the cached output time is -1, which does not cover 0, the
    formula gives 1, and the call returns 0. *)
Lemma required_input_frame_count_zero_output :
  ~ (forall (a : Z) (m : memory) (outputFrameCount : Z),
       data_model_invariants (engine m) = true ->
       exists cot, mal_resampler_get_cached_output_time (Addr a) m = Returns cot m
         /\ if (double_of_Z outputFrameCount <=? cot)%float
            then mal_resampler_get_required_input_frame_count (Addr a) outputFrameCount m
                 = Returns 0 m
            else exists n,
              mal_resampler_get_required_input_frame_count (Addr a) outputFrameCount m
              = Returns n m
              /\ u64_of_double
                   (ceil ((double_of_Z outputFrameCount - cot) * ratio (config (engine m)))%float)
                 = Some n
              /\ 0 < n).
Proof.
  intros H.
  destruct (H 0 (example_memory (example_engine 0 2 0%float (example_config 48000 48000 1%float))) 0)
    as [cot [Ht He]].
  - vm_compute. reflexivity.
  - vm_compute in Ht. injection Ht as <-.
    vm_compute in He. destruct He as [n [He1 [He2 _]]].
    injection He1 as <-. discriminate He2.
Qed.

(** The uncovered branch on an ordinary request: a fresh engine at ratio 2
    needs 20 input frames for 10 output frames. *)
Example required_input_frame_count_fresh :
  mal_resampler_get_required_input_frame_count (Addr 0) 10
    (example_memory (example_engine 0 0 0%float (example_config 48000 24000 2%float)))
  = Returns 20 (example_memory (example_engine 0 0 0%float (example_config 48000 24000 2%float))).
Proof. vm_compute. reflexivity. Qed.

Lemma required_input_frame_count_spec_witness :
  exists n,
    mal_resampler_get_required_input_frame_count (Addr 0) 10
      (example_memory (example_engine 0 0 0%float (example_config 48000 24000 2%float)))
    = Returns n
        (example_memory (example_engine 0 0 0%float (example_config 48000 24000 2%float)))
    /\ 0 < n.
Proof.
  destruct (required_input_frame_count_spec 0
              (example_memory (example_engine 0 0 0%float (example_config 48000 24000 2%float)))
              10) as [cot [Hcot H]].
  vm_compute in Hcot. injection Hcot as <-.
  assert (E : (10 =? 0) || (double_of_Z 10 <=? 0)%float = false) by (vm_compute; reflexivity).
  rewrite E in H. destruct H as [_ Htotal].
  apply Htotal.
  - vm_compute. reflexivity.
  - vm_compute. reflexivity.
  - vm_compute. reflexivity.
  - change (2 ^ 53) with 9007199254740992. lia.
Defined.

(** ** Cached input time *)

Lemma calculate_cached_input_time_nonneg (a : Z) (m : memory) :
  is_uint16 (cacheLengthInFrames (engine m)) = true ->
  (windowTime (engine m) + reserved (engine m)
   <=? double_of_Z (cacheLengthInFrames (engine m)))%float = true ->
  exists t, mal_resampler__calculate_cached_input_time (Addr a) m = Returns t m
    /\ (0 <=? t)%float = true.
Proof.
  intros Hlen Hle.
  assert (Hfin : SFfinite (Prim2SF (double_of_Z (cacheLengthInFrames (engine m)))) = true).
  { apply double_of_Z_finite. unfold is_uint16 in Hlen.
    apply andb_true_iff in Hlen. destruct Hlen as [H0 H1].
    apply Z.leb_le in H0. apply Z.ltb_lt in H1.
    change (2 ^ 16) with 65536 in H1. change (2 ^ 53) with 9007199254740992. lia. }
  unfold mal_resampler__calculate_cached_input_time, bind, load, ret.
  cbv beta iota. unfold reserved in Hle.
  destruct (endOfInputMode (config (engine m)));
    (eexists; split; [reflexivity|]); apply sub_nonneg; assumption.
Qed.

(** X21. On an engine whose ratio is within its bounds and whose window
    position and reserved part of the window together do not exceed the
    cached frames, the cached output time reported by
    [mal_resampler_get_cached_output_time] is not negative. *)
Lemma cached_output_time_nonneg (a : Z) (m : memory) :
  is_uint16 (cacheLengthInFrames (engine m)) = true ->
  (windowTime (engine m) + reserved (engine m)
   <=? double_of_Z (cacheLengthInFrames (engine m)))%float = true ->
  (MAL_RESAMPLER_MIN_RATIO <=? ratio (config (engine m)))%float = true ->
  (ratio (config (engine m)) <=? MAL_RESAMPLER_MAX_RATIO)%float = true ->
  exists cot, mal_resampler_get_cached_output_time (Addr a) m = Returns cot m
    /\ (0 <=? cot)%float = true.
Proof.
  intros Hlen Hle Hmin Hmax.
  destruct (calculate_cached_input_time_nonneg a m Hlen Hle) as (t & Ht & Hpos).
  exists (t / ratio (config (engine m)))%float. split.
  - unfold mal_resampler_get_cached_output_time,
      mal_resampler__calculate_cached_output_time.
    change (is_null (Addr a)) with false. cbv iota.
    rewrite (bind_returns _ _ _ _ _ Ht). reflexivity.
  - pose proof (ratio_in_bounds_pos_in _ Hmin Hmax) as Hratio.
    rewrite leb_spec in Hpos |- *. rewrite div_spec.
    change (Prim2SF 0) with (S754_zero false) in *. rewrite SFleb_zero in *.
    exact (SFdiv_nonneg _ _ (-9) 7 Hpos Hratio).
Qed.

(** C3. When the window position and the reserved part of the window
    together do not exceed the cached frames,
    [windowTime + reserved <= cacheLengthInFrames], the cached input time
    reported by [mal_resampler_get_cached_input_time] is not negative. *)
Theorem cached_input_time_nonneg (p : pointer) (m : memory) :
  is_uint16 (cacheLengthInFrames (engine m)) = true ->
  (windowTime (engine m) + reserved (engine m)
   <=? double_of_Z (cacheLengthInFrames (engine m)))%float = true ->
  exists t, mal_resampler_get_cached_input_time p m = Returns t m
    /\ (0 <=? t)%float = true.
Proof.
  intros Hlen Hle.
  destruct p as [|a].
  - exists 0%float. split; reflexivity.
  - exact (calculate_cached_input_time_nonneg a m Hlen Hle).
Qed.

Lemma cached_input_time_nonneg_witness :
  exists t,
    mal_resampler_get_cached_input_time (Addr 0)
      (example_memory (example_engine 10 4 1.5%float (example_config 48000 48000 1%float)))
    = Returns t
        (example_memory (example_engine 10 4 1.5%float (example_config 48000 48000 1%float)))
    /\ (0 <=? t)%float = true.
Proof.
  apply (cached_input_time_nonneg (Addr 0)
           (example_memory (example_engine 10 4 1.5%float (example_config 48000 48000 1%float)))).
  - reflexivity.
  - vm_compute. reflexivity.
Defined.

(** C3, as stated, fails: an engine with 2 cached frames, a window of 4
    and [windowTime = 1] satisfies the invariants of the data model, and
    its cached input time is 2 - (1 + 2) = -1. *)
Lemma cached_input_time_negative :
  ~ (forall (a : Z) (m : memory),
       data_model_invariants (engine m) = true ->
       exists t, mal_resampler_get_cached_input_time (Addr a) m = Returns t m
         /\ (0 <=? t)%float = true).
Proof.
  intros H.
  destruct (H 0 (example_memory (example_engine 2 4 1%float (example_config 48000 48000 1%float))))
    as [t [Ht Hpos]].
  - vm_compute. reflexivity.
  - vm_compute in Ht. injection Ht as <-.
    vm_compute in Hpos. discriminate Hpos.
Qed.

(** ** Ratio bounds *)

(** What the test of [mal_resampler_set_rate_ratio] does with a ratio that
    is ordered with the bounds: below [MAL_RESAMPLER_MIN_RATIO] or above
    [MAL_RESAMPLER_MAX_RATIO] the call returns [MAL_INVALID_ARGS] and
    leaves the memory as it was; from the one bound to the other it
    returns [MAL_SUCCESS], [config.ratio] is exactly that ratio and
    nothing else has changed. *)
Lemma set_rate_ratio_bounds (a : Z) (m : memory) (x : double) :
  ((x <? MAL_RESAMPLER_MIN_RATIO)%float = true \/ (MAL_RESAMPLER_MAX_RATIO <? x)%float = true ->
   mal_resampler_set_rate_ratio (Addr a) x m = Returns MAL_INVALID_ARGS m)
  /\ ((MAL_RESAMPLER_MIN_RATIO <=? x)%float = true /\ (x <=? MAL_RESAMPLER_MAX_RATIO)%float = true ->
      mal_resampler_set_rate_ratio (Addr a) x m
      = Returns MAL_SUCCESS
          (mk_memory (set_config (with_ratio x (config (engine m))) (engine m))
                     (client_reads m))).
Proof.
  unfold mal_resampler_set_rate_ratio, bind, ret, update, is_null. cbv beta iota.
  split.
  - intros [H|H]; rewrite H; [reflexivity|].
    now rewrite orb_true_r.
  - intros [Hmin Hmax].
    rewrite (leb_ltb _ _ Hmin), (leb_ltb _ _ Hmax). reflexivity.
Qed.

Lemma set_rate_ratio_bounds_witness :
  mal_resampler_set_rate_ratio (Addr 0) 1000%float
    (example_memory (example_engine 0 0 0%float (example_config 48000 24000 2%float)))
  = Returns MAL_INVALID_ARGS
      (example_memory (example_engine 0 0 0%float (example_config 48000 24000 2%float)))
  /\ mal_resampler_set_rate_ratio (Addr 0) 0.5%float
       (example_memory (example_engine 0 0 0%float (example_config 48000 24000 2%float)))
     = Returns MAL_SUCCESS
         (example_memory (example_engine 0 0 0%float (example_config 48000 24000 0.5%float))).
Proof.
  split.
  - apply (proj1 (set_rate_ratio_bounds 0
             (example_memory (example_engine 0 0 0%float (example_config 48000 24000 2%float)))
             1000%float)).
    right. vm_compute. reflexivity.
  - apply (proj2 (set_rate_ratio_bounds 0
             (example_memory (example_engine 0 0 0%float (example_config 48000 24000 2%float)))
             0.5%float)).
    split; vm_compute; reflexivity.
Defined.

(** A double that is not NaN has a representation other than NaN. *)
Lemma Prim2SF_not_nan (x : double) : is_nan x = false -> Prim2SF x <> S754_nan.
Proof.
  intros H. unfold Prim2SF. rewrite H.
  destruct (is_zero x); [discriminate|].
  destruct (is_infinity x); [discriminate|].
  destruct (Z.frexp x) as [r ex].
  destruct (shr_fexp _ _ _ _ _) as [mrs e'].
  destruct (shr_m mrs); discriminate.
Qed.

(** Doubles other than NaN are totally ordered: [x <= y] holds exactly
    when [y < x] does not. *)
Lemma leb_negb_ltb (x y : double) :
  is_nan x = false -> is_nan y = false -> (x <=? y)%float = negb (y <? x)%float.
Proof.
  intros Hx Hy. rewrite leb_spec, ltb_spec.
  pose proof (Prim2SF_not_nan x Hx) as Nx. pose proof (Prim2SF_not_nan y Hy) as Ny.
  destruct (SFleb (Prim2SF x) (Prim2SF y)) eqn:Hle.
  - now rewrite (SFleb_SFltb _ _ Hle).
  - rewrite SFleb_false_SFltb; trivial.
    intros Hn. apply SFcompare_None in Hn. tauto.
Qed.

(** C8 is not met at NaN. The test of [mal_resampler_set_rate_ratio],
    [ratio < MIN || ratio > MAX], is false for NaN, a double that is not
    within [MAL_RESAMPLER_MIN_RATIO, MAL_RESAMPLER_MAX_RATIO]: on the
    engine constructed for 48000 -> 24000 (ratio 2, a valid state) the
    call with NaN returns [MAL_SUCCESS] and stores NaN as the ratio, and
    so it does in every memory. NaN is the only ratio at which the call
    departs from the claim: for every other double the call returns
    [MAL_SUCCESS] and stores exactly that ratio when it is within the
    bounds, and returns [MAL_INVALID_ARGS] with the memory unchanged when
    it is not. *)
Theorem set_rate_ratio_accepts_nan :
  mal_resampler_init (Some (example_config 48000 24000 0%float)) (Addr 0) fresh_memory
  = Returns MAL_SUCCESS
      (example_memory (example_engine 0 0 0%float (example_config 48000 24000 2%float)))
  /\ data_model_invariants (example_engine 0 0 0%float (example_config 48000 24000 2%float))
     = true
  /\ (MAL_RESAMPLER_MIN_RATIO <=? nan)%float && (nan <=? MAL_RESAMPLER_MAX_RATIO)%float = false
  /\ mal_resampler_set_rate_ratio (Addr 0) nan
       (example_memory (example_engine 0 0 0%float (example_config 48000 24000 2%float)))
     = Returns MAL_SUCCESS
         (example_memory (example_engine 0 0 0%float (example_config 48000 24000 nan)))
  /\ (forall (a : Z) (m : memory),
        mal_resampler_set_rate_ratio (Addr a) nan m
        = Returns MAL_SUCCESS
            (mk_memory (set_config (with_ratio nan (config (engine m))) (engine m))
                       (client_reads m)))
  /\ (forall (a : Z) (m : memory) (x : double),
        is_nan x = false ->
        mal_resampler_set_rate_ratio (Addr a) x m
        = if (MAL_RESAMPLER_MIN_RATIO <=? x)%float && (x <=? MAL_RESAMPLER_MAX_RATIO)%float
          then Returns MAL_SUCCESS
                 (mk_memory (set_config (with_ratio x (config (engine m))) (engine m))
                            (client_reads m))
          else Returns MAL_INVALID_ARGS m).
Proof.
  split; [vm_compute; reflexivity|].
  split; [vm_compute; reflexivity|].
  split; [vm_compute; reflexivity|].
  split; [vm_compute; reflexivity|].
  split; [reflexivity|].
  intros a m x Hx.
  rewrite (leb_negb_ltb MAL_RESAMPLER_MIN_RATIO x eq_refl Hx).
  rewrite (leb_negb_ltb x MAL_RESAMPLER_MAX_RATIO Hx eq_refl).
  unfold mal_resampler_set_rate_ratio, bind, ret, update, is_null. cbv beta iota.
  destruct (x <? MAL_RESAMPLER_MIN_RATIO)%float;
    destruct (MAL_RESAMPLER_MAX_RATIO <? x)%float; reflexivity.
Qed.

(** What [mal_resampler_set_rate] does with non-zero rates: the ratio it
    checks and stores is the one of the rates already in the engine. *)
Lemma set_rate_stored_ratio (a : Z) (m : memory) (rateIn rateOut : Z) :
  rateIn <> 0 -> rateOut <> 0 ->
  mal_resampler_set_rate (Addr a) rateIn rateOut m
  = let old := (double_of_Z (sampleRateIn (config (engine m)))
                / double_of_Z (sampleRateOut (config (engine m))))%float in
    if (old <? MAL_RESAMPLER_MIN_RATIO)%float || (MAL_RESAMPLER_MAX_RATIO <? old)%float
    then Returns MAL_INVALID_ARGS m
    else Returns MAL_SUCCESS
           (mk_memory
              (set_config
                 (with_ratio old (with_rates rateIn rateOut (config (engine m)))) (engine m))
              (client_reads m)).
Proof.
  intros Hin Hout.
  unfold mal_resampler_set_rate, bind, ret, update, load, is_null. cbv beta iota zeta.
  apply Z.eqb_neq in Hin, Hout. rewrite Hin, Hout. cbn [orb].
  destruct (_ || _); reflexivity.
Qed.

(** C1 is not met: [mal_resampler_set_rate] takes the ratio it checks and
    stores from the rates already in the engine, not from the rates it is
    given. An engine constructed for 48000 -> 48000 has ratio 1; setting
    44100 -> 22050 succeeds and stores the new rates with ratio 1 instead
    of 2; and setting 48000 -> 1, whose ratio 48000 is above
    [MAL_RESAMPLER_MAX_RATIO], succeeds as well, again with ratio 1. *)
Theorem set_rate_uses_stored_rates :
  mal_resampler_init (Some (example_config 48000 48000 0%float)) (Addr 0) fresh_memory
  = Returns MAL_SUCCESS
      (example_memory (example_engine 0 0 0%float (example_config 48000 48000 1%float)))
  /\ mal_resampler_set_rate (Addr 0) 44100 22050
       (example_memory (example_engine 0 0 0%float (example_config 48000 48000 1%float)))
     = Returns MAL_SUCCESS
         (example_memory (example_engine 0 0 0%float (example_config 44100 22050 1%float)))
  /\ (double_of_Z 44100 / double_of_Z 22050)%float = 2%float
  /\ mal_resampler_set_rate (Addr 0) 48000 1
       (example_memory (example_engine 0 0 0%float (example_config 48000 48000 1%float)))
     = Returns MAL_SUCCESS
         (example_memory (example_engine 0 0 0%float (example_config 48000 1 1%float)))
  /\ (MAL_RESAMPLER_MAX_RATIO <? double_of_Z 48000 / double_of_Z 1)%float = true.
Proof. repeat split; vm_compute; reflexivity. Qed.

(** What [mal_resampler_init] does with an explicit ratio: it is stored as
    given, without a comparison to the bounds. *)
Lemma init_explicit_ratio (cfg : mal_resampler_config) (a : Z) (m : memory) :
  format cfg = mal_format_f32 \/ format cfg = mal_format_s16 ->
  channels cfg <> 0 ->
  (ratio cfg =? 0)%float = false ->
  onRead cfg <> NULL ->
  exists m', mal_resampler_init (Some cfg) (Addr a) m = Returns MAL_SUCCESS m'
    /\ config (engine m') = cfg.
Proof.
  intros Hfmt Hch Hratio Hread.
  destruct cfg as [fmt ch rateIn rateOut x alg mode f ud]. cbn in Hfmt, Hch, Hratio, Hread.
  unfold mal_resampler_init, mal_zero_object, bind, ret, update, load, is_null.
  cbn [engine config set_config format channels ratio onRead algorithm sampleRateIn sampleRateOut].
  cbv beta iota zeta.
  assert (Hf : negb (mal_format_eqb fmt mal_format_f32)
               && negb (mal_format_eqb fmt mal_format_s16) = false).
  { destruct Hfmt as [-> | ->]; reflexivity. }
  rewrite Hf. apply Z.eqb_neq in Hch. rewrite Hch, Hratio.
  destruct f as [|f]; [contradiction|].
  destruct alg; cbn; eexists; split; reflexivity.
Qed.

(** With no explicit ratio the one of the rates is stored, again without
    a comparison to the bounds. *)
Lemma init_derived_ratio (cfg : mal_resampler_config) (a : Z) (m : memory) :
  format cfg = mal_format_f32 \/ format cfg = mal_format_s16 ->
  channels cfg <> 0 ->
  (ratio cfg =? 0)%float = true ->
  sampleRateIn cfg <> 0 -> sampleRateOut cfg <> 0 ->
  onRead cfg <> NULL ->
  exists m', mal_resampler_init (Some cfg) (Addr a) m = Returns MAL_SUCCESS m'
    /\ config (engine m')
       = with_ratio (double_of_Z (sampleRateIn cfg) / double_of_Z (sampleRateOut cfg))%float cfg.
Proof.
  intros Hfmt Hch Hratio Hin Hout Hread.
  destruct cfg as [fmt ch rateIn rateOut x alg mode f ud].
  cbn in Hfmt, Hch, Hratio, Hin, Hout, Hread.
  unfold mal_resampler_init, mal_zero_object, bind, ret, update, load, is_null.
  cbn [engine config set_config format channels ratio onRead algorithm sampleRateIn sampleRateOut].
  cbv beta iota zeta.
  assert (Hf : negb (mal_format_eqb fmt mal_format_f32)
               && negb (mal_format_eqb fmt mal_format_s16) = false).
  { destruct Hfmt as [-> | ->]; reflexivity. }
  rewrite Hf. apply Z.eqb_neq in Hch, Hin, Hout. rewrite Hch, Hratio, Hin, Hout.
  destruct f as [|f]; [contradiction|].
  destruct alg; cbn; eexists; split; reflexivity.
Qed.

(** C2 is not met: [mal_resampler_init] does not compare the ratio with
    the bounds. Construction with the explicit ratio 1000, or with the
    rates 48000 -> 1 and no explicit ratio, both above
    [MAL_RESAMPLER_MAX_RATIO], returns [MAL_SUCCESS] and leaves an engine
    with that ratio. *)
Theorem init_accepts_ratio_out_of_bounds :
  mal_resampler_init (Some (example_config 48000 48000 1000%float)) (Addr 0) fresh_memory
  = Returns MAL_SUCCESS
      (example_memory (example_engine 0 0 0%float (example_config 48000 48000 1000%float)))
  /\ (MAL_RESAMPLER_MAX_RATIO <? 1000)%float = true
  /\ mal_resampler_init (Some (example_config 48000 1 0%float)) (Addr 0) fresh_memory
     = Returns MAL_SUCCESS
         (example_memory (example_engine 0 0 0%float (example_config 48000 1 48000%float)))
  /\ (MAL_RESAMPLER_MAX_RATIO <? 48000)%float = true.
Proof. repeat split; vm_compute; reflexivity. Qed.

(** * Further properties of the facade *)

(** ** Construction *)

(** [mal_resampler_init] behind a non-NULL engine pointer, evaluated: an
    accepted configuration gives the constructed engine, a rejected or
    missing one an engine without backends. *)
Lemma init_outcome (pConfig : option mal_resampler_config) (a : Z) (m : memory) :
  match pConfig with
  | Some c =>
      if config_accepted c
      then mal_resampler_init pConfig (Addr a) m
           = Returns MAL_SUCCESS (mk_memory (constructed_engine c) (client_reads m))
      else exists c',
           mal_resampler_init pConfig (Addr a) m
           = Returns MAL_INVALID_ARGS
               (mk_memory (set_config c' zero_resampler) (client_reads m))
  | None =>
      mal_resampler_init pConfig (Addr a) m
      = Returns MAL_INVALID_ARGS (mk_memory zero_resampler (client_reads m))
  end.
Proof.
  destruct pConfig as [c|]; [|reflexivity].
  unfold config_accepted, constructed_engine, constructed_config.
  destruct c as [fmt ch rateIn rateOut x alg mode f ud].
  unfold mal_resampler_init, mal_zero_object, bind, ret, update, load, is_null.
  cbn [engine config set_config format channels ratio onRead algorithm sampleRateIn
       sampleRateOut client_reads].
  cbv beta iota zeta.
  destruct fmt; cbn [mal_format_eqb negb andb orb]; try (eexists; reflexivity);
    (destruct (ch =? 0); cbn [negb andb orb]; [eexists; reflexivity|]);
    (destruct (x =? 0)%float; cbn [negb andb orb];
     [destruct (rateIn =? 0); cbn [negb andb orb]; [eexists; reflexivity|];
      destruct (rateOut =? 0); cbn [negb andb orb]; [eexists; reflexivity|]|]);
    (destruct f as [|f]; cbn [negb andb orb]; [eexists; reflexivity|]);
    destruct alg; reflexivity.
Qed.

(** X1. Behind a non-NULL engine pointer [mal_resampler_init] always
    returns, and it returns [MAL_SUCCESS] exactly when a configuration is
    given whose format is f32 or s16, whose channel count is not 0,
    whose ratio is not 0 or whose two sample rates are not 0, and whose
    [onRead] callback is not NULL; otherwise it returns
    [MAL_INVALID_ARGS]. *)
Theorem init_result (pConfig : option mal_resampler_config) (a : Z) (m : memory) :
  exists m',
    mal_resampler_init pConfig (Addr a) m
    = Returns (match pConfig with
               | Some c => if config_accepted c then MAL_SUCCESS else MAL_INVALID_ARGS
               | None => MAL_INVALID_ARGS
               end) m'.
Proof.
  pose proof (init_outcome pConfig a m) as H.
  destruct pConfig as [c|]; [|eexists; exact H].
  destruct (config_accepted c); [eexists; exact H|].
  destruct H as [c' H]. eexists; exact H.
Qed.

(** X2. The engine a successful [mal_resampler_init] leaves is determined
    by the configuration alone: the cache is zeroed and empty, the
    configuration is stored as given except that a ratio of 0 is
    replaced by [sampleRateIn / sampleRateOut], the backend pointers are
    those of the selected algorithm, and the client callback has not
    been called. *)
Theorem init_success_engine (c : mal_resampler_config) (a : Z) (m : memory) :
  config_accepted c = true ->
  mal_resampler_init (Some c) (Addr a) m
  = Returns MAL_SUCCESS (mk_memory (constructed_engine c) (client_reads m)).
Proof.
  intros Hc. pose proof (init_outcome (Some c) a m) as H.
  cbv beta iota in H. rewrite Hc in H. exact H.
Qed.

Lemma init_success_engine_witness :
  mal_resampler_init (Some (example_config 44100 48000 0%float)) (Addr 0)
    (example_memory (example_engine 7 4 1.5%float (example_config 8000 8000 1%float)))
  = Returns MAL_SUCCESS
      (mk_memory (constructed_engine (example_config 44100 48000 0%float)) []).
Proof.
  apply (init_success_engine (example_config 44100 48000 0%float) 0
           (example_memory (example_engine 7 4 1.5%float (example_config 8000 8000 1%float)))).
  vm_compute. reflexivity.
Defined.

Lemma init_success_inv (pConfig : option mal_resampler_config) (a : Z) (m m' : memory) :
  mal_resampler_init pConfig (Addr a) m = Returns MAL_SUCCESS m' ->
  exists c, pConfig = Some c /\ config_accepted c = true
    /\ m' = mk_memory (constructed_engine c) (client_reads m).
Proof.
  intros H. pose proof (init_outcome pConfig a m) as Ho.
  destruct pConfig as [c|].
  - destruct (config_accepted c) eqn:Hc.
    + rewrite Ho in H. injection H as <-. exists c. auto.
    + destruct Ho as [c' Ho]. rewrite Ho in H. discriminate H.
  - rewrite Ho in H. discriminate H.
Qed.

Lemma init_failure_inv (pConfig : option mal_resampler_config) (a : Z) (m m' : memory) :
  mal_resampler_init pConfig (Addr a) m = Returns MAL_INVALID_ARGS m' ->
  exists c', m' = mk_memory (set_config c' zero_resampler) (client_reads m).
Proof.
  intros H. pose proof (init_outcome pConfig a m) as Ho.
  destruct pConfig as [c|].
  - destruct (config_accepted c) eqn:Hc.
    + rewrite Ho in H. discriminate H.
    + destruct Ho as [c' Ho]. rewrite Ho in H. injection H as <-. exists c'. reflexivity.
  - rewrite Ho in H. injection H as <-. exists zero_config. reflexivity.
Qed.

Lemma constructed_engine_onRead (c : mal_resampler_config) :
  config_accepted c = true ->
  is_null (onRead (config (constructed_engine c))) = false
  /\ exists rd sk, read (constructed_engine c) = Some rd /\ seek (constructed_engine c) = Some sk.
Proof.
  unfold config_accepted, constructed_engine, constructed_config. intros H.
  apply andb_true_iff in H. destruct H as [_ H]. apply negb_true_iff in H.
  split.
  - destruct (algorithm c), (ratio c =? 0)%float; exact H.
  - destruct (algorithm c); cbn; eauto.
Qed.

(** ** Read and seek on the placeholder backends *)

(** X4. On an engine that [mal_resampler_init] has constructed, reading or
    seeking any number of frames returns 0 and leaves the memory as it
    was: no assertion of a backend fails, no frame is produced, the
    position does not move and the client callback is not called. *)
Theorem constructed_engine_read_seek (pConfig : option mal_resampler_config) (a : Z)
    (m m' : memory) (frameCount : Z) (ppFrames : pointer) (options : Z) :
  mal_resampler_init pConfig (Addr a) m = Returns MAL_SUCCESS m' ->
  0 <= frameCount ->
  mal_resampler_read (Addr a) frameCount ppFrames m' = Returns 0 m'
  /\ mal_resampler_seek (Addr a) frameCount options m' = Returns 0 m'.
Proof.
  intros Hinit Hn.
  destruct (init_success_inv _ _ _ _ Hinit) as (c & _ & Hc & ->).
  destruct (constructed_engine_onRead c Hc) as (Hread & rd & sk & Hrd & Hsk).
  unfold mal_resampler_read, mal_resampler_seek, null_or_unset, bind, ret, load, is_null.
  cbn [engine]. rewrite Hrd, Hsk. cbv beta iota.
  destruct (frameCount =? 0) eqn:H0; [split; reflexivity|].
  apply Z.eqb_neq in H0.
  assert (Hpos : (0 <? frameCount) = true) by (apply Z.ltb_lt; lia).
  assert (Hseek : forall o, call_seek sk (Addr a) frameCount o
                              (mk_memory (constructed_engine c) (client_reads m))
                            = Returns 0 (mk_memory (constructed_engine c) (client_reads m))).
  { intros o. destruct sk; cbn;
      unfold mal_resampler_seek__linear, mal_resampler_seek__sinc, bind, mal_assert, ret;
      cbn; rewrite Hread, Hpos; reflexivity. }
  split; [|apply Hseek].
  destruct ppFrames as [|b]; cbn [is_null].
  - cbn [engine]. rewrite Hsk. apply Hseek.
  - destruct rd; cbn;
      unfold mal_resampler_read__linear, mal_resampler_read__sinc, bind, mal_assert, ret;
      cbn; rewrite Hread, Hpos; reflexivity.
Qed.

Lemma constructed_engine_read_seek_witness :
  mal_resampler_read (Addr 0) 256 (Addr 64)
    (example_memory (example_engine 0 0 0%float (example_config 48000 24000 2%float)))
  = Returns 0 (example_memory (example_engine 0 0 0%float (example_config 48000 24000 2%float)))
  /\ mal_resampler_seek (Addr 0) 256 MAL_RESAMPLER_SEEK_INPUT_RATE
       (example_memory (example_engine 0 0 0%float (example_config 48000 24000 2%float)))
     = Returns 0 (example_memory (example_engine 0 0 0%float (example_config 48000 24000 2%float))).
Proof.
  apply (constructed_engine_read_seek (Some (example_config 48000 24000 0%float)) 0
           fresh_memory).
  - vm_compute. reflexivity.
  - lia.
Defined.

(** X5. After a [mal_resampler_init] that returned [MAL_INVALID_ARGS] the
    engine has no backend: reading and seeking return 0 for any frame
    count and any buffer, without an assertion failing. *)
Theorem failed_init_engine_inert (pConfig : option mal_resampler_config) (a : Z)
    (m m' : memory) (frameCount : Z) (ppFrames : pointer) (options : Z) :
  mal_resampler_init pConfig (Addr a) m = Returns MAL_INVALID_ARGS m' ->
  mal_resampler_read (Addr a) frameCount ppFrames m' = Returns 0 m'
  /\ mal_resampler_seek (Addr a) frameCount options m' = Returns 0 m'.
Proof.
  intros Hinit. destruct (init_failure_inv _ _ _ _ Hinit) as (c' & ->).
  split; reflexivity.
Qed.

Lemma failed_init_engine_inert_witness :
  mal_resampler_read (Addr 0) 256 (Addr 64) (example_memory zero_resampler)
  = Returns 0 (example_memory zero_resampler)
  /\ mal_resampler_seek (Addr 0) 256 0 (example_memory zero_resampler)
     = Returns 0 (example_memory zero_resampler).
Proof.
  apply (failed_init_engine_inert None 0
           (example_memory (example_engine 3 2 0%float (example_config 48000 24000 2%float)))).
  vm_compute. reflexivity.
Defined.

(** X6. In any memory and for any arguments, [mal_resampler_read] and
    [mal_resampler_seek] either return 0 with the memory unchanged or
    stop at an assertion of a backend: they never return another count,
    never change the engine, never call the client callback and never
    dereference a NULL engine pointer. *)
Theorem read_seek_outcomes (p : pointer) (frameCount : Z) (ppFrames : pointer)
    (options : Z) (m : memory) :
  (mal_resampler_read p frameCount ppFrames m = Returns 0 m
   \/ mal_resampler_read p frameCount ppFrames m = AssertionFailed)
  /\ (mal_resampler_seek p frameCount options m = Returns 0 m
      \/ mal_resampler_seek p frameCount options m = AssertionFailed).
Proof.
  assert (Hseek : forall o, mal_resampler_seek p frameCount o m = Returns 0 m
                            \/ mal_resampler_seek p frameCount o m = AssertionFailed).
  { intros o. unfold mal_resampler_seek, null_or_unset, bind, ret, load.
    destruct p as [|a]; cbn; auto.
    destruct (seek (engine m)) as [sk|]; auto.
    destruct (frameCount =? 0); auto.
    apply call_seek_placeholder. }
  split; [|apply Hseek].
  unfold mal_resampler_read, null_or_unset, bind, ret, load.
  destruct p as [|a]; cbn; auto.
  destruct (read (engine m)) as [rd|]; auto.
  destruct (frameCount =? 0); auto.
  destruct (is_null ppFrames); [apply Hseek|apply call_read_placeholder].
Qed.

(** X7. [mal_resampler_seek] does not look at its options: with
    [MAL_RESAMPLER_SEEK_NO_CLIENT_READ], [MAL_RESAMPLER_SEEK_INPUT_RATE]
    or any other flags the outcome is the same. *)
Theorem seek_ignores_options (p : pointer) (frameCount : Z) (options options' : Z)
    (m : memory) :
  mal_resampler_seek p frameCount options m = mal_resampler_seek p frameCount options' m.
Proof.
  unfold mal_resampler_seek, null_or_unset, bind, ret, load.
  destruct p as [|a]; cbn; [reflexivity|].
  destruct (seek (engine m)) as [sk|]; [|reflexivity].
  destruct (frameCount =? 0); [reflexivity|].
  destruct sk; reflexivity.
Qed.

(** ** The rate mutators *)

(** [mal_resampler_set_rate] behind a non-NULL pointer, evaluated. *)
Lemma set_rate_outcome (a : Z) (i o : Z) (m : memory) :
  mal_resampler_set_rate (Addr a) i o m
  = let old := (double_of_Z (sampleRateIn (config (engine m)))
                / double_of_Z (sampleRateOut (config (engine m))))%float in
    if (i =? 0) || (o =? 0) then Returns MAL_INVALID_ARGS m
    else if ratio_checked old
    then Returns MAL_SUCCESS
           (mk_memory (set_config (with_ratio old (with_rates i o (config (engine m))))
                         (engine m))
                      (client_reads m))
    else Returns MAL_INVALID_ARGS m.
Proof.
  unfold mal_resampler_set_rate, ratio_checked, bind, ret, update, load, is_null.
  cbv beta iota zeta.
  destruct ((i =? 0) || (o =? 0)); [reflexivity|].
  destruct (_ || _); reflexivity.
Qed.

(** X8. [mal_resampler_set_rate] always returns, and it is all or nothing:
    when it returns [MAL_INVALID_ARGS] the memory is untouched; when it
    returns [MAL_SUCCESS] the engine pointer and both rates are not
    zero, and only [sampleRateIn], [sampleRateOut] and [ratio] of the
    configuration have been written: cache, window, backends and the
    rest of the configuration are as before and the client callback has
    not been called. *)
Theorem set_rate_outcomes (p : pointer) (sampleRateIn' sampleRateOut' : Z) (m : memory) :
  mal_resampler_set_rate p sampleRateIn' sampleRateOut' m = Returns MAL_INVALID_ARGS m
  \/ (p <> NULL /\ sampleRateIn' <> 0 /\ sampleRateOut' <> 0
      /\ exists x,
           mal_resampler_set_rate p sampleRateIn' sampleRateOut' m
           = Returns MAL_SUCCESS
               (mk_memory
                  (set_config
                     (with_ratio x (with_rates sampleRateIn' sampleRateOut' (config (engine m))))
                     (engine m))
                  (client_reads m))).
Proof.
  destruct p as [|a]; [left; reflexivity|].
  rewrite set_rate_outcome. cbv zeta.
  destruct (sampleRateIn' =? 0) eqn:Hi; [left; reflexivity|].
  destruct (sampleRateOut' =? 0) eqn:Ho; [left; reflexivity|].
  cbn [orb]. apply Z.eqb_neq in Hi, Ho.
  destruct (ratio_checked _); [|left; reflexivity].
  right. repeat split; trivial; [discriminate|]. eexists. reflexivity.
Qed.

(** X9. A rate mutator that returns [MAL_SUCCESS] leaves a ratio that has
    passed its test: the stored ratio is not below
    [MAL_RESAMPLER_MIN_RATIO] and not above [MAL_RESAMPLER_MAX_RATIO]. *)
Theorem rate_mutators_store_checked_ratio (p : pointer) (m m' : memory) :
  (exists i o, mal_resampler_set_rate p i o m = Returns MAL_SUCCESS m')
  \/ (exists x, mal_resampler_set_rate_ratio p x m = Returns MAL_SUCCESS m') ->
  ratio_checked (ratio (config (engine m'))) = true.
Proof.
  intros [(i & o & H)|(x & H)].
  - destruct p as [|a]; [discriminate H|].
    rewrite set_rate_outcome in H. cbv zeta in H.
    destruct ((i =? 0) || (o =? 0)); [discriminate H|].
    destruct (ratio_checked _) eqn:Hc; [|discriminate H].
    injection H as <-. exact Hc.
  - destruct p as [|a]; [discriminate H|].
    unfold mal_resampler_set_rate_ratio, bind, ret, update, is_null in H.
    cbv beta iota in H. unfold ratio_checked.
    destruct (_ || _) eqn:Hc; [discriminate H|].
    injection H as <-. cbn [engine config set_config with_ratio ratio].
    rewrite Hc. reflexivity.
Qed.

Lemma rate_mutators_store_checked_ratio_witness :
  ratio_checked
    (ratio (config (engine
       (example_memory (example_engine 0 0 0%float (example_config 48000 24000 0.5%float))))))
  = true.
Proof.
  apply (rate_mutators_store_checked_ratio (Addr 0)
           (example_memory (example_engine 0 0 0%float (example_config 48000 24000 2%float)))).
  right. exists 0.5%float. vm_compute. reflexivity.
Defined.

(** X10. The test of the rate mutators lets NaN through. On an engine
    constructed with an explicit ratio and both sample rates 0, which
    [mal_resampler_init] accepts, [mal_resampler_set_rate] with any
    non-zero rates returns [MAL_SUCCESS] and stores the ratio 0/0, a
    NaN. *)
Theorem set_rate_stores_nan (c : mal_resampler_config) (a : Z) (m m1 : memory)
    (sampleRateIn' sampleRateOut' : Z) :
  mal_resampler_init (Some c) (Addr a) m = Returns MAL_SUCCESS m1 ->
  sampleRateIn c = 0 -> sampleRateOut c = 0 ->
  sampleRateIn' <> 0 -> sampleRateOut' <> 0 ->
  exists m2,
    mal_resampler_set_rate (Addr a) sampleRateIn' sampleRateOut' m1 = Returns MAL_SUCCESS m2
    /\ ratio (config (engine m2)) = nan
    /\ sampleRateIn (config (engine m2)) = sampleRateIn'
    /\ sampleRateOut (config (engine m2)) = sampleRateOut'.
Proof.
  intros Hinit Hin Hout Hi Ho.
  destruct (init_success_inv _ _ _ _ Hinit) as (c0 & Hc0 & Hc & ->).
  injection Hc0 as <-.
  assert (Hrates : sampleRateIn (config (constructed_engine c)) = 0
                   /\ sampleRateOut (config (constructed_engine c)) = 0).
  { unfold constructed_engine, constructed_config.
    destruct (algorithm c), (ratio c =? 0)%float; cbn; auto. }
  destruct Hrates as [Hin' Hout'].
  rewrite set_rate_outcome. cbn [engine]. rewrite Hin', Hout'. cbv zeta.
  apply Z.eqb_neq in Hi, Ho. rewrite Hi, Ho. cbn [orb].
  change (double_of_Z 0 / double_of_Z 0)%float with nan.
  change (ratio_checked nan) with true. cbv iota.
  eexists. split; [reflexivity|]. cbn. auto.
Qed.

Lemma set_rate_stores_nan_witness :
  exists m2,
    mal_resampler_set_rate (Addr 0) 48000 24000
      (example_memory (example_engine 0 0 0%float (example_config 0 0 2%float)))
    = Returns MAL_SUCCESS m2
    /\ ratio (config (engine m2)) = nan
    /\ sampleRateIn (config (engine m2)) = 48000
    /\ sampleRateOut (config (engine m2)) = 24000.
Proof.
  apply (set_rate_stores_nan (example_config 0 0 2%float) 0 fresh_memory).
  - vm_compute. reflexivity.
  - reflexivity.
  - reflexivity.
  - lia.
  - lia.
Defined.

(** X11. [mal_resampler_set_rate] lags by one call: after a successful call
    with the rates [i1 -> o1], the next call with non-zero rates is
    decided by [i1 / o1] alone. It succeeds exactly when that ratio
    passes the test, and it then stores the new rates together with the
    ratio [i1 / o1] of the previous ones. *)
Theorem set_rate_lags_one_call (a : Z) (m m1 : memory) (i1 o1 i2 o2 : Z) :
  mal_resampler_set_rate (Addr a) i1 o1 m = Returns MAL_SUCCESS m1 ->
  i2 <> 0 -> o2 <> 0 ->
  mal_resampler_set_rate (Addr a) i2 o2 m1
  = if ratio_checked (double_of_Z i1 / double_of_Z o1)%float
    then Returns MAL_SUCCESS
           (mk_memory
              (set_config
                 (with_ratio (double_of_Z i1 / double_of_Z o1)%float
                    (with_rates i2 o2 (config (engine m))))
                 (engine m))
              (client_reads m))
    else Returns MAL_INVALID_ARGS m1.
Proof.
  intros H1 Hi Ho.
  rewrite set_rate_outcome in H1. cbv zeta in H1.
  destruct ((i1 =? 0) || (o1 =? 0)); [discriminate H1|].
  destruct (ratio_checked _); [|discriminate H1].
  injection H1 as <-.
  rewrite set_rate_outcome. cbn [engine config set_config with_ratio with_rates
    sampleRateIn sampleRateOut client_reads]. cbv zeta.
  apply Z.eqb_neq in Hi, Ho. rewrite Hi, Ho. cbn [orb].
  destruct (ratio_checked _); reflexivity.
Qed.

Lemma set_rate_lags_one_call_witness :
  mal_resampler_set_rate (Addr 0) 48000 48000
    (example_memory (example_engine 0 0 0%float (example_config 44100 22050 1%float)))
  = Returns MAL_SUCCESS
      (example_memory (example_engine 0 0 0%float (example_config 48000 48000 2%float))).
Proof.
  apply (set_rate_lags_one_call 0
           (example_memory (example_engine 0 0 0%float (example_config 48000 48000 1%float)))
           (example_memory (example_engine 0 0 0%float (example_config 44100 22050 1%float)))
           44100 22050 48000 48000).
  - vm_compute. reflexivity.
  - lia.
  - lia.
Defined.

(** X12. A ratio set with [mal_resampler_set_rate_ratio] is the one the
    queries use from then on: the cached input time is unchanged by the
    call, and the cached output time reported afterwards is that input
    time divided by the new ratio. *)
Theorem set_rate_ratio_then_output_time (a : Z) (x : double) (m m1 : memory) :
  mal_resampler_set_rate_ratio (Addr a) x m = Returns MAL_SUCCESS m1 ->
  exists t,
    mal_resampler_get_cached_input_time (Addr a) m = Returns t m
    /\ mal_resampler_get_cached_input_time (Addr a) m1 = Returns t m1
    /\ mal_resampler_get_cached_output_time (Addr a) m1 = Returns (t / x)%float m1.
Proof.
  unfold mal_resampler_set_rate_ratio, bind, ret, update, is_null. cbv beta iota.
  destruct (_ || _); [discriminate|]. intros H. injection H as <-.
  unfold mal_resampler_get_cached_output_time, mal_resampler_get_cached_input_time,
    mal_resampler__calculate_cached_output_time, mal_resampler__calculate_cached_input_time,
    bind, ret, load, is_null.
  cbn [engine config set_config with_ratio ratio endOfInputMode cacheLengthInFrames
       windowTime windowLength].
  destruct (endOfInputMode (config (engine m))); eexists; repeat split.
Qed.

Lemma set_rate_ratio_then_output_time_witness :
  exists t,
    mal_resampler_get_cached_input_time (Addr 0)
      (example_memory (example_engine 10 4 1.5%float (example_config 48000 48000 1%float)))
    = Returns t
        (example_memory (example_engine 10 4 1.5%float (example_config 48000 48000 1%float)))
    /\ mal_resampler_get_cached_input_time (Addr 0)
         (example_memory (example_engine 10 4 1.5%float (example_config 48000 48000 2%float)))
       = Returns t
           (example_memory (example_engine 10 4 1.5%float (example_config 48000 48000 2%float)))
    /\ mal_resampler_get_cached_output_time (Addr 0)
         (example_memory (example_engine 10 4 1.5%float (example_config 48000 48000 2%float)))
       = Returns (t / 2)%float
           (example_memory (example_engine 10 4 1.5%float (example_config 48000 48000 2%float))).
Proof.
  apply (set_rate_ratio_then_output_time 0 2%float
           (example_memory (example_engine 10 4 1.5%float (example_config 48000 48000 1%float)))).
  vm_compute. reflexivity.
Defined.

(** ** The NULL engine pointer *)

(** X13. Every function of the facade checks the engine pointer before it
    uses it: with a NULL pointer construction and the rate mutators
    return [MAL_INVALID_ARGS], reading, seeking and the six queries
    return 0, and the memory is untouched. *)
Theorem null_engine_pointer (pConfig : option mal_resampler_config) (i o n options : Z)
    (x : double) (ppFrames : pointer) (m : memory) :
  mal_resampler_init pConfig NULL m = Returns MAL_INVALID_ARGS m
  /\ mal_resampler_set_rate NULL i o m = Returns MAL_INVALID_ARGS m
  /\ mal_resampler_set_rate_ratio NULL x m = Returns MAL_INVALID_ARGS m
  /\ mal_resampler_read NULL n ppFrames m = Returns 0 m
  /\ mal_resampler_seek NULL n options m = Returns 0 m
  /\ mal_resampler_get_cached_input_time NULL m = Returns 0%float m
  /\ mal_resampler_get_cached_output_time NULL m = Returns 0%float m
  /\ mal_resampler_get_cached_input_frame_count NULL m = Returns 0 m
  /\ mal_resampler_get_cached_output_frame_count NULL m = Returns 0 m
  /\ mal_resampler_get_required_input_frame_count NULL n m = Returns 0 m
  /\ mal_resampler_get_expected_output_frame_count NULL n m = Returns 0 m.
Proof. repeat split. Qed.

(** ** The queries on an engine with nothing cached *)

(** Shifting out the zero bits that were appended to a mantissa gives
    the mantissa back, exactly. *)
Lemma iter_pos_shr_1_exact (k m : positive) :
  iter_pos shr_1 k {| shr_m := Zpos (Pos.iter xO m k); shr_r := false; shr_s := false |}
  = {| shr_m := Zpos m; shr_r := false; shr_s := false |}.
Proof.
  revert m. induction k as [k IH|k IH|]; intros m; cbn [iter_pos Pos.iter].
  - cbn [shr_1 orb]. rewrite IH, IH. reflexivity.
  - rewrite IH, IH. reflexivity.
  - reflexivity.
Qed.

(** Rounding an exact value whose mantissa is a representable one
    followed by [k] zero bits gives that representable number. *)
Lemma binary_round_aux_shifted (s : bool) (m k : positive) (e : Z) :
  bounded prec emax m e = true ->
  binary_round_aux prec emax s (Zpos (Pos.iter xO m k)) (e - Zpos k) loc_Exact
  = S754_finite s m e.
Proof.
  intros Hb. apply bounded_spec in Hb. destruct Hb as [Hc He].
  unfold binary_round_aux, shr_fexp. cbn [Zdigits2 shr_record_of_loc].
  rewrite digits2_pos_iter_xO, fexp_spec, ?Pos2Z.inj_add.
  replace (Z.max (Zpos (digits2_pos m) + Zpos k + (e - Zpos k) - 53) (-1074) - (e - Zpos k))
    with (Zpos k) by lia.
  cbn [shr]. rewrite iter_pos_shr_1_exact.
  cbn [shr_m loc_of_shr_record round_nearest_even Zdigits2 shr_record_of_loc].
  rewrite fexp_spec.
  replace (Z.max (Zpos (digits2_pos m) + (e - Zpos k + Zpos k) - 53) (-1074)
           - (e - Zpos k + Zpos k)) with 0 by lia.
  cbn [shr shr_m].
  replace (e - Zpos k + Zpos k) with e by lia.
  assert (Hle : (e <=? emax - prec) = true) by (apply Z.leb_le; unfold emax, prec; lia).
  rewrite Hle. reflexivity.
Qed.

Lemma SFmul_one (m : positive) (e : Z) :
  bounded prec emax m e = true ->
  SF64mul (S754_finite false m e) (Prim2SF 1) = S754_finite false m e.
Proof.
  intros Hb.
  change (Prim2SF 1) with (S754_finite false 4503599627370496 (-52)).
  unfold SF64mul, SFmul. cbn [xorb].
  replace (m * 4503599627370496)%positive with (Pos.iter xO m 52).
  - apply (binary_round_aux_shifted false m 52 e Hb).
  - apply Pos2Z.inj. rewrite iter_xO_value, Pos2Z.inj_mul. reflexivity.
Qed.

Lemma SFdiv_one (m : positive) (e : Z) :
  bounded prec emax m e = true -> Zpos (digits2_pos m) = 53 -> -1074 < e ->
  SF64div (S754_finite false m e) (Prim2SF 1) = S754_finite false m e.
Proof.
  intros Hb Hd He.
  change (Prim2SF 1) with (S754_finite false 4503599627370496 (-52)).
  unfold SF64div, SFdiv, SFdiv_core_binary. cbn [xorb Zdigits2].
  rewrite Hd. change (Zpos (digits2_pos 4503599627370496)) with 53.
  rewrite fexp_spec.
  replace (Z.min (Z.max (53 + e - (53 + -52) - 53) (-1074)) (e - -52)) with (e - 1) by lia.
  replace (e - -52 - (e - 1)) with 53 by lia.
  assert (Hq : Z.div_eucl (Z.shiftl (Zpos m) 53) 4503599627370496 = (Zpos (Pos.iter xO m 1), 0)).
  { pose proof (Z.div_eucl_eq (Z.shiftl (Zpos m) 53) 4503599627370496 ltac:(lia)) as Heq.
    pose proof (Z.mod_pos_bound (Z.shiftl (Zpos m) 53) 4503599627370496 ltac:(lia)) as Hr.
    unfold Z.modulo in Hr.
    destruct (Z.div_eucl (Z.shiftl (Zpos m) 53) 4503599627370496) as [q r].
    rewrite Z.shiftl_mul_pow2 in Heq by lia.
    change (2 ^ 53) with 9007199254740992 in Heq.
    cbn [Pos.iter]. f_equal; lia. }
  rewrite Hq.
  change (new_location 4503599627370496 0) with loc_Exact.
  apply (binary_round_aux_shifted false m 1 e Hb).
Qed.

(** An integer below 2^53 converted to double is a normal number. *)
Lemma Prim2SF_double_of_Z_normal (z : positive) :
  Zpos z < 2 ^ 53 ->
  exists m e, Prim2SF (double_of_Z (Zpos z)) = S754_finite false m e
    /\ bounded prec emax m e = true
    /\ Zpos (digits2_pos m) = 53 /\ -53 < e <= 0
    /\ Zpos m = Zpos z * 2 ^ (- e).
Proof.
  intros Hz.
  destruct (Prim2SF_double_of_Z z Hz) as (m & e & Hp & Hb & He & Hval & Hmag).
  exists m, e. repeat split; trivial.
  - destruct (bounded_digits m e Hb) as [Hd [Hmin|H53]]; [|exact H53].
    pose proof (digits2_pos_bounds z). lia.
  - destruct (bounded_digits m e Hb) as [Hd _].
    assert (0 < Zpos (digits2_pos z)) by lia. lia.
Qed.

(** The conversion of such an integer is integral, and converts back to
    the integer. *)
Lemma double_of_Z_integral (z : positive) :
  Zpos z < 2 ^ 53 ->
  floor (double_of_Z (Zpos z)) = double_of_Z (Zpos z)
  /\ ceil (double_of_Z (Zpos z)) = double_of_Z (Zpos z)
  /\ u64_of_double (double_of_Z (Zpos z)) = Some (Zpos z).
Proof.
  intros Hz.
  destruct (Prim2SF_double_of_Z_normal z Hz) as (m & e & Hp & Hb & Hd & He & Hval).
  assert (Hpow : 0 < 2 ^ (- e)) by (apply Z.pow_pos_nonneg; lia).
  assert (Hfl : Zfloor_finite false m e = Zpos z).
  { unfold Zfloor_finite. cbn [cond_Zopp].
    rewrite Z.shiftr_div_pow2, Hval, Z.div_mul by lia. reflexivity. }
  assert (Hce : Zceil_finite false m e = Zpos z).
  { unfold Zceil_finite. cbn [cond_Zopp].
    rewrite Z.shiftr_div_pow2, Hval by lia.
    replace (- (Zpos z * 2 ^ (- e))) with (- Zpos z * 2 ^ (- e)) by ring.
    rewrite Z.div_mul by lia. lia. }
  unfold floor, ceil, u64_of_double. rewrite Hp, Hfl, Hce.
  repeat split.
  - destruct (e <? 0); reflexivity.
  - destruct (e <? 0); reflexivity.
  - assert (Hr : (0 <=? Zpos z) && (Zpos z <? 2 ^ 64) = true).
    { apply andb_true_iff. change (2 ^ 53) with 9007199254740992 in Hz.
      change (2 ^ 64) with 18446744073709551616.
      split; [apply Z.leb_le|apply Z.ltb_lt]; lia. }
    rewrite Hr. reflexivity.
Qed.

(** Multiplying or dividing the conversion of such an integer by 1, and
    adding 0 to it or subtracting 0 from it, gives it back. *)
Lemma double_of_Z_units (z : positive) :
  Zpos z < 2 ^ 53 ->
  (double_of_Z (Zpos z) * 1 = double_of_Z (Zpos z)
   /\ double_of_Z (Zpos z) / 1 = double_of_Z (Zpos z)
   /\ double_of_Z (Zpos z) - 0 = double_of_Z (Zpos z)
   /\ 0 + double_of_Z (Zpos z) = double_of_Z (Zpos z))%float.
Proof.
  intros Hz.
  destruct (Prim2SF_double_of_Z_normal z Hz) as (m & e & Hp & Hb & Hd & He & _).
  repeat split; apply Prim2SF_inj.
  - rewrite mul_spec, Hp. apply SFmul_one. exact Hb.
  - rewrite div_spec, Hp. apply SFdiv_one; trivial. lia.
  - rewrite sub_spec, Hp. reflexivity.
  - rewrite add_spec, Hp. reflexivity.
Qed.

(** On an engine with nothing cached the cached input time is 0. *)
Lemma empty_cache_input_time (a : Z) (m : memory) :
  cache_empty (engine m) ->
  mal_resampler__calculate_cached_input_time (Addr a) m = Returns 0%float m.
Proof.
  intros (Hlen & Hwin & Htime).
  unfold mal_resampler__calculate_cached_input_time, bind, ret, load.
  rewrite Hlen, Hwin, Htime.
  destruct (endOfInputMode (config (engine m))); reflexivity.
Qed.

(** 0 divided by a ratio within the bounds is 0. *)
Lemma zero_div_ratio (r : double) :
  (MAL_RESAMPLER_MIN_RATIO <=? r)%float = true ->
  (r <=? MAL_RESAMPLER_MAX_RATIO)%float = true ->
  (0 / r)%float = 0%float.
Proof.
  intros Hmin Hmax.
  destruct (ratio_in_bounds_pos_in r Hmin Hmax) as (mr & er & Hr & _).
  apply Prim2SF_inj. rewrite div_spec, Hr. reflexivity.
Qed.

Lemma empty_cache_output_time (a : Z) (m : memory) :
  cache_empty (engine m) ->
  (MAL_RESAMPLER_MIN_RATIO <=? ratio (config (engine m)))%float = true ->
  (ratio (config (engine m)) <=? MAL_RESAMPLER_MAX_RATIO)%float = true ->
  mal_resampler__calculate_cached_output_time (Addr a) m = Returns 0%float m.
Proof.
  intros Hempty Hmin Hmax.
  unfold mal_resampler__calculate_cached_output_time.
  rewrite (bind_returns _ _ _ _ _ (empty_cache_input_time a m Hempty)).
  unfold bind, ret, load. rewrite (zero_div_ratio _ Hmin Hmax). reflexivity.
Qed.

(** X14. On an engine with nothing cached, as construction leaves it, and
    a ratio within the bounds, the cached output time and the cached
    output frame count are 0, and a request for [outputFrameCount]
    frames, [0 < outputFrameCount < 2^53], needs
    [ceil(outputFrameCount * ratio)] input frames: the call returns that
    count, which is above 0, and no assertion fails. *)
Theorem empty_cache_required_input_frames (a : Z) (m : memory) (outputFrameCount : Z) :
  cache_empty (engine m) ->
  (MAL_RESAMPLER_MIN_RATIO <=? ratio (config (engine m)))%float = true ->
  (ratio (config (engine m)) <=? MAL_RESAMPLER_MAX_RATIO)%float = true ->
  0 < outputFrameCount < 2 ^ 53 ->
  mal_resampler_get_cached_output_time (Addr a) m = Returns 0%float m
  /\ mal_resampler_get_cached_output_frame_count (Addr a) m = Returns 0 m
  /\ exists n,
       mal_resampler_get_required_input_frame_count (Addr a) outputFrameCount m = Returns n m
       /\ u64_of_double (ceil (double_of_Z outputFrameCount * ratio (config (engine m)))%float)
          = Some n
       /\ 0 < n.
Proof.
  intros Hempty Hmin Hmax Ho.
  pose proof (empty_cache_output_time a m Hempty Hmin Hmax) as Hcot.
  assert (Hget : mal_resampler_get_cached_output_time (Addr a) m = Returns 0%float m)
    by exact Hcot.
  split; [exact Hget|]. split.
  { unfold mal_resampler_get_cached_output_frame_count.
    rewrite (bind_returns _ _ _ _ _ Hget). reflexivity. }
  destruct outputFrameCount as [|z|z]; try lia.
  destruct (double_of_Z_units z (proj2 Ho)) as (_ & _ & Hsub & _).
  destruct (Prim2SF_double_of_Z_normal z (proj2 Ho)) as (mz & ez & Hp & _).
  assert (Hcov : (double_of_Z (Zpos z) <=? 0)%float = false).
  { rewrite leb_spec, Hp. reflexivity. }
  destruct (required_frames_positive (Zpos z) 0%float (ratio (config (engine m)))
              Ho Hmin Hmax eq_refl Hcov) as (Hd & n & Hn & Hpos).
  exists n. rewrite Hsub in Hn. repeat split; trivial.
  unfold mal_resampler_get_required_input_frame_count.
  change (is_null (Addr a)) with false. change (Zpos z =? 0) with false. cbv iota.
  rewrite (bind_returns _ _ _ _ _ Hcot). rewrite Hcov.
  unfold bind, mal_assert, load, to_mal_uint64, ret.
  rewrite Hd, Hsub, Hn.
  apply Z.ltb_lt in Hpos. rewrite Hpos. reflexivity.
Qed.

Lemma empty_cache_required_input_frames_witness :
  mal_resampler_get_cached_output_time (Addr 0)
    (example_memory (example_engine 0 0 0%float (example_config 48000 24000 2%float)))
  = Returns 0%float
      (example_memory (example_engine 0 0 0%float (example_config 48000 24000 2%float)))
  /\ mal_resampler_get_cached_output_frame_count (Addr 0)
       (example_memory (example_engine 0 0 0%float (example_config 48000 24000 2%float)))
     = Returns 0
         (example_memory (example_engine 0 0 0%float (example_config 48000 24000 2%float)))
  /\ exists n,
       mal_resampler_get_required_input_frame_count (Addr 0) 10
         (example_memory (example_engine 0 0 0%float (example_config 48000 24000 2%float)))
       = Returns n
           (example_memory (example_engine 0 0 0%float (example_config 48000 24000 2%float)))
       /\ u64_of_double (ceil (double_of_Z 10 * 2)%float) = Some n
       /\ 0 < n.
Proof.
  apply (empty_cache_required_input_frames 0
           (example_memory (example_engine 0 0 0%float (example_config 48000 24000 2%float)))
           10).
  - repeat split.
  - vm_compute. reflexivity.
  - vm_compute. reflexivity.
  - change (2 ^ 53) with 9007199254740992. lia.
Defined.

(** X15. At ratio 1 and with nothing cached the frame counts are exact and
    inverse to each other: for [0 < n < 2^53],
    [mal_resampler_get_required_input_frame_count] of [n] output frames
    and [mal_resampler_get_expected_output_frame_count] of [n] input
    frames both return [n]. *)
Theorem ratio_one_frame_counts (a : Z) (m : memory) (n : Z) :
  cache_empty (engine m) ->
  ratio (config (engine m)) = 1%float ->
  0 < n < 2 ^ 53 ->
  mal_resampler_get_required_input_frame_count (Addr a) n m = Returns n m
  /\ mal_resampler_get_expected_output_frame_count (Addr a) n m = Returns n m.
Proof.
  intros Hempty Hone Hn.
  destruct n as [|z|z]; try lia.
  destruct (double_of_Z_units z (proj2 Hn)) as (Hmul & Hdiv & Hsub & Hadd).
  destruct (double_of_Z_integral z (proj2 Hn)) as (Hfloor & Hceil & Hconv).
  destruct (Prim2SF_double_of_Z_normal z (proj2 Hn)) as (mz & ez & Hp & _).
  assert (Hcot : mal_resampler__calculate_cached_output_time (Addr a) m = Returns 0%float m).
  { apply empty_cache_output_time; trivial; rewrite Hone; reflexivity. }
  assert (Hcov : (double_of_Z (Zpos z) <=? 0)%float = false).
  { rewrite leb_spec, Hp. reflexivity. }
  assert (Hpos : (0 <? double_of_Z (Zpos z))%float = true).
  { rewrite ltb_spec, Hp. reflexivity. }
  split.
  - unfold mal_resampler_get_required_input_frame_count.
    change (is_null (Addr a)) with false. change (Zpos z =? 0) with false. cbv iota.
    rewrite (bind_returns _ _ _ _ _ Hcot). rewrite Hcov.
    unfold bind, mal_assert, load, to_mal_uint64, ret. rewrite Hsub, Hpos.
    cbv beta iota. rewrite Hone, Hmul, Hceil, Hconv. reflexivity.
  - unfold mal_resampler_get_expected_output_frame_count.
    change (is_null (Addr a)) with false. change (Zpos z =? 0) with false. cbv iota.
    rewrite (bind_returns _ _ _ _ _ (empty_cache_input_time a m Hempty)).
    unfold bind, load, to_mal_uint64, ret. cbv beta iota.
    rewrite Hone, Hadd, Hdiv, Hfloor, Hconv. reflexivity.
Qed.

Lemma ratio_one_frame_counts_witness :
  mal_resampler_get_required_input_frame_count (Addr 0) 480
    (example_memory (example_engine 0 0 0%float (example_config 48000 48000 1%float)))
  = Returns 480
      (example_memory (example_engine 0 0 0%float (example_config 48000 48000 1%float)))
  /\ mal_resampler_get_expected_output_frame_count (Addr 0) 480
       (example_memory (example_engine 0 0 0%float (example_config 48000 48000 1%float)))
     = Returns 480
         (example_memory (example_engine 0 0 0%float (example_config 48000 48000 1%float))).
Proof.
  apply (ratio_one_frame_counts 0
           (example_memory (example_engine 0 0 0%float (example_config 48000 48000 1%float)))
           480).
  - repeat split.
  - reflexivity.
  - change (2 ^ 53) with 9007199254740992. lia.
Defined.

(** X16. Whatever [mal_resampler_init] returns behind a non-NULL pointer,
    it leaves an engine with nothing cached: the cached input time and
    the cached input frame count are 0. *)
Theorem constructed_engine_nothing_cached (pConfig : option mal_resampler_config) (a : Z)
    (m m' : memory) (res : mal_result) :
  mal_resampler_init pConfig (Addr a) m = Returns res m' ->
  mal_resampler_get_cached_input_time (Addr a) m' = Returns 0%float m'
  /\ mal_resampler_get_cached_input_frame_count (Addr a) m' = Returns 0 m'.
Proof.
  intros Hinit.
  destruct (init_empty_cache _ _ _ _ _ Hinit) as (Hlen & Hwin & Htime & _).
  assert (Ht : mal_resampler_get_cached_input_time (Addr a) m' = Returns 0%float m').
  { apply empty_cache_input_time. repeat split; trivial. }
  split; [exact Ht|].
  unfold mal_resampler_get_cached_input_frame_count.
  rewrite (bind_returns _ _ _ _ _ Ht). reflexivity.
Qed.

Lemma constructed_engine_nothing_cached_witness :
  mal_resampler_get_cached_input_time (Addr 0)
    (example_memory (example_engine 0 0 0%float (example_config 48000 24000 2%float)))
  = Returns 0%float
      (example_memory (example_engine 0 0 0%float (example_config 48000 24000 2%float)))
  /\ mal_resampler_get_cached_input_frame_count (Addr 0)
       (example_memory (example_engine 0 0 0%float (example_config 48000 24000 2%float)))
     = Returns 0
         (example_memory (example_engine 0 0 0%float (example_config 48000 24000 2%float))).
Proof.
  apply (constructed_engine_nothing_cached (Some (example_config 48000 24000 0%float)) 0
           fresh_memory _ MAL_SUCCESS).
  vm_compute. reflexivity.
Defined.

(** ** The alignment macros *)

(** For a power of two and a type not narrower than [int],
    [MAL_ALIGN_INT] clears the low bits of the wrapped sum. *)
Lemma MAL_ALIGN_INT_value (int_bits bits val k : Z) :
  int_bits <= bits -> 0 <= bits -> 0 <= k ->
  MAL_ALIGN_INT int_bits bits val (2 ^ k)
  = ((val + (2 ^ k - 1)) mod 2 ^ bits) / 2 ^ k * 2 ^ k.
Proof.
  intros Hint Hbits Hk. unfold MAL_ALIGN_INT.
  assert (Hw : (bits <? int_bits) = false) by (apply Z.ltb_ge; exact Hint).
  rewrite Hw.
  set (X := (val + (2 ^ k - 1)) mod 2 ^ bits).
  assert (HX : X mod 2 ^ bits = X) by (unfold X; apply Z.mod_mod; lia).
  replace (2 ^ k - 1) with (Z.ones k) by (rewrite Z.ones_equiv; lia).
  rewrite <- (Z.land_ones (Z.lnot (Z.ones k)) bits Hbits).
  rewrite (Z.land_comm (Z.lnot (Z.ones k))), Z.land_assoc.
  rewrite (Z.land_ones X bits Hbits), HX.
  rewrite <- Z.ldiff_land, Z.ldiff_ones_r by exact Hk.
  rewrite Z.shiftl_mul_pow2, Z.shiftr_div_pow2 by exact Hk. reflexivity.
Qed.

(** On a type narrower than [int] it clears the low bits of the exact
    sum. *)
Lemma MAL_ALIGN_INT_promoted (int_bits bits val k : Z) :
  bits < int_bits -> 0 <= k ->
  MAL_ALIGN_INT int_bits bits val (2 ^ k) = (val + (2 ^ k - 1)) / 2 ^ k * 2 ^ k.
Proof.
  intros Hint Hk. unfold MAL_ALIGN_INT.
  assert (Hw : (bits <? int_bits) = true) by (apply Z.ltb_lt; exact Hint).
  rewrite Hw.
  replace (Z.lnot (2 ^ k - 1)) with (Z.lnot (Z.ones k)) by (rewrite Z.ones_equiv; f_equal; lia).
  rewrite <- Z.ldiff_land, Z.ldiff_ones_r by exact Hk.
  rewrite Z.shiftl_mul_pow2, Z.shiftr_div_pow2 by exact Hk. reflexivity.
Qed.

(** Either way the result is a multiple of the alignment. *)
Lemma MAL_ALIGN_INT_multiple (int_bits bits val k : Z) :
  0 <= bits -> 0 <= k -> MAL_ALIGN_INT int_bits bits val (2 ^ k) mod 2 ^ k = 0.
Proof.
  intros Hbits Hk.
  assert (Hpow : 0 < 2 ^ k) by (apply Z.pow_pos_nonneg; lia).
  destruct (Z.lt_ge_cases bits int_bits) as [Hint|Hint].
  - rewrite (MAL_ALIGN_INT_promoted int_bits bits val k Hint Hk). apply Z.mod_mul. lia.
  - rewrite (MAL_ALIGN_INT_value int_bits bits val k Hint Hbits Hk). apply Z.mod_mul. lia.
Qed.

Lemma stack_buffer_bytes_value (size k : Z) :
  0 <= k -> stack_buffer_bytes size (2 ^ k) = size / 2 ^ k * 2 ^ k.
Proof.
  intros Hk. unfold stack_buffer_bytes.
  replace (2 ^ k - 1) with (Z.ones k) by (rewrite Z.ones_equiv; lia).
  rewrite <- Z.ldiff_land, Z.ldiff_ones_r by exact Hk.
  rewrite Z.shiftl_mul_pow2, Z.shiftr_div_pow2 by exact Hk. reflexivity.
Qed.

(** Rounding down to a multiple of [2^k] loses less than [2^k]. *)
Lemma round_down_bounds (x k : Z) :
  0 <= k -> x - 2 ^ k < x / 2 ^ k * 2 ^ k <= x.
Proof.
  intros Hk. assert (Hpow : 0 < 2 ^ k) by (apply Z.pow_pos_nonneg; lia).
  pose proof (Z.div_mod x (2 ^ k) ltac:(lia)).
  pose proof (Z.mod_pos_bound x (2 ^ k) Hpow). lia.
Qed.

(** Without a carry out of the type [MAL_ALIGN_INT] is the usual
    rounding up of integers, whether or not [val] is promoted. *)
Lemma MAL_ALIGN_INT_no_carry (int_bits bits val k : Z) :
  0 <= k -> 0 <= val -> val + (2 ^ k - 1) < 2 ^ bits ->
  MAL_ALIGN_INT int_bits bits val (2 ^ k) = (val + (2 ^ k - 1)) / 2 ^ k * 2 ^ k.
Proof.
  intros Hk Hval Hfit.
  assert (Hpow : 0 < 2 ^ k) by (apply Z.pow_pos_nonneg; lia).
  assert (Hbits : 0 <= bits).
  { destruct (Z.lt_ge_cases bits 0) as [Hneg|]; [|assumption].
    rewrite (Z.pow_neg_r 2 bits Hneg) in Hfit. lia. }
  destruct (Z.lt_ge_cases bits int_bits) as [Hint|Hint].
  - apply MAL_ALIGN_INT_promoted; assumption.
  - rewrite (MAL_ALIGN_INT_value int_bits bits val k Hint Hbits Hk).
    rewrite (Z.mod_small (val + (2 ^ k - 1)) (2 ^ bits)) by lia. reflexivity.
Qed.

(** X17. For an alignment that is a power of two and a value that the
    addition does not carry out of its type, [MAL_ALIGN_INT] rounds up
    to the alignment: the result is the multiple of the alignment in
    [val, val + alignment), so an aligned value is returned as it is.
    This holds whatever the width of [int] is. *)
Theorem MAL_ALIGN_INT_rounds_up (int_bits bits val k : Z) :
  0 <= k -> 0 <= val -> val + (2 ^ k - 1) < 2 ^ bits ->
  MAL_ALIGN_INT int_bits bits val (2 ^ k) mod 2 ^ k = 0
  /\ val <= MAL_ALIGN_INT int_bits bits val (2 ^ k) < val + 2 ^ k
  /\ (val mod 2 ^ k = 0 -> MAL_ALIGN_INT int_bits bits val (2 ^ k) = val).
Proof.
  intros Hk Hval Hfit.
  assert (Hpow : 0 < 2 ^ k) by (apply Z.pow_pos_nonneg; lia).
  rewrite (MAL_ALIGN_INT_no_carry int_bits bits val k Hk Hval Hfit).
  pose proof (round_down_bounds (val + (2 ^ k - 1)) k Hk) as Hb.
  split; [apply Z.mod_mul; lia|]. split; [lia|].
  intros Hal.
  pose proof (Z.div_mod val (2 ^ k) ltac:(lia)) as Hdm. rewrite Hal in Hdm.
  replace (val + (2 ^ k - 1)) with (val / 2 ^ k * 2 ^ k + (2 ^ k - 1)) by lia.
  rewrite Z.div_add_l, (Z.div_small (2 ^ k - 1)) by lia. lia.
Qed.

Lemma MAL_ALIGN_INT_rounds_up_witness :
  MAL_ALIGN_INT 32 64 4097 (2 ^ 6) mod 2 ^ 6 = 0
  /\ 4097 <= MAL_ALIGN_INT 32 64 4097 (2 ^ 6) < 4097 + 2 ^ 6
  /\ (4097 mod 2 ^ 6 = 0 -> MAL_ALIGN_INT 32 64 4097 (2 ^ 6) = 4097).
Proof.
  apply (MAL_ALIGN_INT_rounds_up 32 64 4097 6).
  - lia.
  - lia.
  - vm_compute. reflexivity.
Defined.

(** X18. On an unsigned type that is not narrower than [int], as
    [mal_uintptr] is, the addition of [MAL_ALIGN_INT] wraps around: for
    the values less than [alignment - 1] below the top of the type the
    result is 0, so [MAL_ALIGN_PTR] turns such a pointer into NULL
    instead of an address at or above it. (On a type narrower than [int]
    the operand is promoted and nothing wraps: a [mal_uint16] 65533
    aligned to 64 gives 65536.) *)
Theorem MAL_ALIGN_INT_carry (int_bits bits val k : Z) :
  int_bits <= bits ->
  0 <= k <= bits -> 0 <= val < 2 ^ bits -> 2 ^ bits <= val + (2 ^ k - 1) ->
  MAL_ALIGN_INT int_bits bits val (2 ^ k) = 0
  /\ MAL_ALIGN_PTR int_bits bits val (2 ^ k) = 0.
Proof.
  intros Hint Hk Hval Hcarry.
  assert (Hpow : 0 < 2 ^ k) by (apply Z.pow_pos_nonneg; lia).
  assert (Hle : 2 ^ k <= 2 ^ bits) by (apply Z.pow_le_mono_r; lia).
  unfold MAL_ALIGN_PTR.
  rewrite (MAL_ALIGN_INT_value int_bits bits val k) by lia.
  replace ((val + (2 ^ k - 1)) mod 2 ^ bits) with (val + (2 ^ k - 1) - 2 ^ bits).
  - rewrite Z.div_small by lia. split; reflexivity.
  - apply (Z.mod_unique _ _ 1); lia.
Qed.

Lemma MAL_ALIGN_INT_carry_witness :
  MAL_ALIGN_INT 32 32 (2 ^ 32 - 3) (2 ^ 6) = 0
  /\ MAL_ALIGN_PTR 32 32 (2 ^ 32 - 3) (2 ^ 6) = 0.
Proof.
  apply (MAL_ALIGN_INT_carry 32 32 (2 ^ 32 - 3) 6).
  - lia.
  - lia.
  - vm_compute. split; [discriminate|reflexivity].
  - vm_compute. discriminate.
Defined.

(** The operands below the width of [int] on sample values: nothing
    wraps at the width of the operand. *)
Example MAL_ALIGN_INT_promoted_values :
  MAL_ALIGN_INT 32 16 65533 64 = 65536
  /\ MAL_ALIGN_INT 32 8 253 64 = 256
  /\ MAL_ALIGN_INT 32 32 (2 ^ 32 - 3) 64 = 0
  /\ MAL_ALIGN_INT 32 64 (2 ^ 64 - 3) 64 = 0
  /\ MAL_ALIGN_INT 32 64 4097 64 = 4160.
Proof. repeat split. Qed.

(** X19. The channel pointers that [MAL_DECLARE_ALIGNED_STACK_BUFFER] sets
    up are all aligned to the (power of two) alignment, wherever the
    array is, and the frame count it declares fits a sub-buffer:
    [FrameCount * sizeof(type)] does not exceed the bytes of a
    sub-buffer, which do not exceed [size]. *)
Theorem stack_buffer_channels_aligned
    (int_bits bits offset_bits unaligned size k sizeof_type iChannel : Z) :
  0 <= bits -> 0 <= k <= offset_bits -> 0 < sizeof_type ->
  stack_buffer_channel int_bits bits offset_bits unaligned size (2 ^ k) iChannel mod 2 ^ k = 0
  /\ stack_buffer_FrameCount size (2 ^ k) sizeof_type * sizeof_type
     <= stack_buffer_bytes size (2 ^ k) <= size.
Proof.
  intros Hbits Hk Hs.
  assert (Hpow : 0 < 2 ^ k) by (apply Z.pow_pos_nonneg; lia).
  split.
  - unfold stack_buffer_channel, MAL_ALIGN_PTR.
    rewrite Z.add_mod, (MAL_ALIGN_INT_multiple int_bits bits unaligned k) by lia.
    rewrite (stack_buffer_bytes_value size k) by lia.
    rewrite Z.mod_mod_divide.
    + rewrite Z.mul_assoc, Z.mod_mul by lia. reflexivity.
    + exists (2 ^ (offset_bits - k)). rewrite <- Z.pow_add_r by lia. f_equal. lia.
  - unfold stack_buffer_FrameCount. rewrite (stack_buffer_bytes_value size k) by lia.
    pose proof (round_down_bounds size k ltac:(lia)).
    pose proof (Z.mul_div_le (size / 2 ^ k * 2 ^ k) sizeof_type Hs). lia.
Qed.

Lemma stack_buffer_channels_aligned_witness :
  stack_buffer_channel 32 64 32 4097 1000 (2 ^ 6) 1 mod 2 ^ 6 = 0
  /\ stack_buffer_FrameCount 1000 (2 ^ 6) 4 * 4 <= stack_buffer_bytes 1000 (2 ^ 6) <= 1000.
Proof.
  apply (stack_buffer_channels_aligned 32 64 32 4097 1000 6 4 1); lia.
Defined.

(** X20. The array that [MAL_DECLARE_ALIGNED_STACK_BUFFER] declares has
    room for one sub-buffer only. The sub-buffer of channel 0 lies
    within the array; the sub-buffer of channel 1 ends beyond the end of
    the array as soon as [size] is at least three times the alignment. *)
Theorem stack_buffer_second_channel_overruns
    (int_bits bits offset_bits unaligned size k : Z) :
  0 <= k -> 0 <= unaligned -> unaligned + (2 ^ k - 1) < 2 ^ bits ->
  0 <= size -> 2 * size < 2 ^ offset_bits ->
  (unaligned <= stack_buffer_channel int_bits bits offset_bits unaligned size (2 ^ k) 0
   /\ stack_buffer_channel int_bits bits offset_bits unaligned size (2 ^ k) 0
      + stack_buffer_bytes size (2 ^ k)
      <= stack_buffer_end unaligned size (2 ^ k))
  /\ (3 * 2 ^ k <= size ->
      stack_buffer_end unaligned size (2 ^ k)
      < stack_buffer_channel int_bits bits offset_bits unaligned size (2 ^ k) 1
        + stack_buffer_bytes size (2 ^ k)).
Proof.
  intros Hk Hun Hfit Hsize Hoff.
  assert (Hpow : 0 < 2 ^ k) by (apply Z.pow_pos_nonneg; lia).
  pose proof (round_down_bounds (unaligned + (2 ^ k - 1)) k Hk) as Hp.
  pose proof (round_down_bounds size k Hk) as Hb.
  unfold stack_buffer_channel, stack_buffer_end, MAL_ALIGN_PTR.
  rewrite (MAL_ALIGN_INT_no_carry int_bits bits unaligned k Hk Hun Hfit).
  rewrite (stack_buffer_bytes_value size k Hk).
  split.
  - rewrite Z.mul_0_l, Z.mod_0_l by lia. lia.
  - intros Hbig. rewrite Z.mul_1_l, Z.mod_small by nia. lia.
Qed.

Lemma stack_buffer_second_channel_overruns_witness :
  (4097 <= stack_buffer_channel 32 64 32 4097 1000 (2 ^ 6) 0
   /\ stack_buffer_channel 32 64 32 4097 1000 (2 ^ 6) 0 + stack_buffer_bytes 1000 (2 ^ 6)
      <= stack_buffer_end 4097 1000 (2 ^ 6))
  /\ stack_buffer_end 4097 1000 (2 ^ 6)
     < stack_buffer_channel 32 64 32 4097 1000 (2 ^ 6) 1 + stack_buffer_bytes 1000 (2 ^ 6).
Proof.
  destruct (stack_buffer_second_channel_overruns 32 64 32 4097 1000 6) as [H0 H1].
  - lia.
  - lia.
  - vm_compute. reflexivity.
  - lia.
  - vm_compute. reflexivity.
  - split; [exact H0|]. apply H1. vm_compute. discriminate.
Defined.

(** ** The queries on an engine that was not constructed *)

(** X3. The queries do not check that the engine was constructed. After a
    [mal_resampler_init] without a configuration, which returns
    [MAL_INVALID_ARGS] and leaves the ratio 0, the cached output time is
    0/0, a NaN; its conversion in
    [mal_resampler_get_cached_output_frame_count] is undefined, for
    [0 < n < 2^53] so is the conversion of the infinite [n / 0] in
    [mal_resampler_get_expected_output_frame_count], and
    [mal_resampler_get_required_input_frame_count] stops at its first
    assertion. *)
Theorem unconstructed_engine_queries (a : Z) (m m' : memory) (res : mal_result) (n : Z) :
  mal_resampler_init None (Addr a) m = Returns res m' ->
  0 < n < 2 ^ 53 ->
  mal_resampler_get_cached_output_time (Addr a) m' = Returns nan m'
  /\ mal_resampler_get_cached_output_frame_count (Addr a) m' = Undefined
  /\ mal_resampler_get_expected_output_frame_count (Addr a) n m' = Undefined
  /\ mal_resampler_get_required_input_frame_count (Addr a) n m' = AssertionFailed.
Proof.
  intros Hinit Hn.
  pose proof (init_outcome None a m) as Ho. cbv beta iota in Ho.
  rewrite Ho in Hinit. injection Hinit as <- <-.
  set (m0 := mk_memory zero_resampler (client_reads m)).
  assert (Hempty : cache_empty (engine m0)) by (repeat split).
  pose proof (empty_cache_input_time a m0 Hempty) as Hin.
  assert (Hcot : mal_resampler__calculate_cached_output_time (Addr a) m0 = Returns nan m0).
  { unfold mal_resampler__calculate_cached_output_time.
    rewrite (bind_returns _ _ _ _ _ Hin). reflexivity. }
  assert (Hget : mal_resampler_get_cached_output_time (Addr a) m0 = Returns nan m0)
    by exact Hcot.
  destruct n as [|z|z]; try lia.
  destruct (double_of_Z_units z (proj2 Hn)) as (_ & _ & _ & Hadd).
  destruct (Prim2SF_double_of_Z_normal z (proj2 Hn)) as (mz & ez & Hp & _).
  assert (Hinf : (double_of_Z (Zpos z) / 0)%float = infinity).
  { apply Prim2SF_inj. rewrite div_spec, Hp. reflexivity. }
  assert (Hnan : (double_of_Z (Zpos z) - nan)%float = nan).
  { apply Prim2SF_inj. rewrite sub_spec, Hp. reflexivity. }
  assert (Hcov : (double_of_Z (Zpos z) <=? nan)%float = false).
  { rewrite leb_spec, Hp. reflexivity. }
  split; [exact Hget|]. split; [|split].
  - unfold mal_resampler_get_cached_output_frame_count.
    rewrite (bind_returns _ _ _ _ _ Hget). reflexivity.
  - unfold mal_resampler_get_expected_output_frame_count.
    change (is_null (Addr a)) with false. change (Zpos z =? 0) with false. cbv iota.
    rewrite (bind_returns _ _ _ _ _ Hin).
    unfold bind, load, ret. cbv beta iota.
    change (ratio (config (engine m0))) with 0%float.
    rewrite Hadd, Hinf. reflexivity.
  - unfold mal_resampler_get_required_input_frame_count.
    change (is_null (Addr a)) with false. change (Zpos z =? 0) with false. cbv iota.
    rewrite (bind_returns _ _ _ _ _ Hcot). rewrite Hcov.
    unfold bind, mal_assert. rewrite Hnan. reflexivity.
Qed.

Lemma unconstructed_engine_queries_witness :
  mal_resampler_get_cached_output_time (Addr 0) fresh_memory = Returns nan fresh_memory
  /\ mal_resampler_get_cached_output_frame_count (Addr 0) fresh_memory = Undefined
  /\ mal_resampler_get_expected_output_frame_count (Addr 0) 256 fresh_memory = Undefined
  /\ mal_resampler_get_required_input_frame_count (Addr 0) 256 fresh_memory = AssertionFailed.
Proof.
  apply (unconstructed_engine_queries 0
           (example_memory (example_engine 3 2 0%float (example_config 48000 24000 2%float)))
           fresh_memory MAL_INVALID_ARGS 256).
  - vm_compute. reflexivity.
  - change (2 ^ 53) with 9007199254740992. lia.
Defined.

Lemma cached_output_time_nonneg_witness :
  exists cot,
    mal_resampler_get_cached_output_time (Addr 0)
      (example_memory (example_engine 10 4 1.5%float (example_config 48000 24000 2%float)))
    = Returns cot
        (example_memory (example_engine 10 4 1.5%float (example_config 48000 24000 2%float)))
    /\ (0 <=? cot)%float = true.
Proof.
  apply (cached_output_time_nonneg 0
           (example_memory (example_engine 10 4 1.5%float (example_config 48000 24000 2%float)))).
  - reflexivity.
  - vm_compute. reflexivity.
  - vm_compute. reflexivity.
  - vm_compute. reflexivity.
Defined.
